(** * Coinbase trade executor: configuration and order pipeline

    A shallow embedding of [config.py] and [trading_bot.py].

    - Python [float] is the kernel's binary64 [float]; comparisons and
      division are the primitive ones, and the [:.Nf] / [:,.Nf] / [str]
      renderings are computed from the exact value of the float.
    - Python [str] is [string].  Case mapping is Python's on the ASCII
      range, which is where every literal the program compares against
      lives; other bytes are left as they are.
    - The exchange client, [uuid.uuid4] and [datetime.now] are the
      environment: a record of oracles indexed by how often they have been
      asked.  The world threaded through the methods records every client
      call and every log record, in order. *)

From Stdlib Require Import ZArith Bool List String Ascii Lia Floats.
From Stdlib Require Import Numbers.DecimalString.
Import ListNotations.

Open Scope string_scope.

(** ** Strings *)

Module PyStr.

Definition is_upper (c : ascii) : bool :=
  let n := nat_of_ascii c in (65 <=? n)%nat && (n <=? 90)%nat.

Definition is_lower (c : ascii) : bool :=
  let n := nat_of_ascii c in (97 <=? n)%nat && (n <=? 122)%nat.

Definition lower_char (c : ascii) : ascii :=
  if is_upper c then ascii_of_nat (nat_of_ascii c + 32) else c.

Definition upper_char (c : ascii) : ascii :=
  if is_lower c then ascii_of_nat (nat_of_ascii c - 32) else c.

Fixpoint map (f : ascii -> ascii) (s : string) : string :=
  match s with
  | EmptyString => EmptyString
  | String c r => String (f c) (map f r)
  end.

(** [s.lower()] and [s.upper()] *)
Definition lower : string -> string := map lower_char.
Definition upper : string -> string := map upper_char.

(** [c * n] for a one-character string *)
Fixpoint repeat (c : ascii) (n : nat) : string :=
  match n with
  | O => EmptyString
  | S k => String c (repeat c k)
  end.

(** [s[:n]] for [n >= 0] *)
Fixpoint take (n : nat) (s : string) : string :=
  match n, s with
  | S k, String c r => String c (take k r)
  | _, _ => EmptyString
  end.

(** [s[n:]] for [n >= 0] *)
Fixpoint drop (n : nat) (s : string) : string :=
  match n, s with
  | S k, String _ r => drop k r
  | _, _ => s
  end.

(** [s[-n:]] for [n > 0]: the last [n] characters, all of [s] when it is
    shorter. *)
Definition take_last (n : nat) (s : string) : string :=
  drop (String.length s - n) s.

(** [s.split(sep)[0]] for a one-character separator: everything before the
    first occurrence, all of [s] when there is none. *)
Fixpoint split_head (sep : ascii) (s : string) : string :=
  match s with
  | EmptyString => EmptyString
  | String c r => if Ascii.eqb c sep then EmptyString else String c (split_head sep r)
  end.

(** [needle in hay] *)
Fixpoint contains (needle hay : string) : bool :=
  String.prefix needle hay ||
  match hay with
  | EmptyString => false
  | String _ r => contains needle r
  end.

End PyStr.

(** ** Floats and their renderings *)

Module PyFloat.

Open Scope Z_scope.

Definition nat_str (n : Z) : string :=
  NilZero.string_of_uint (N.to_uint (Z.to_N n)).

(** [n] in decimal, left-padded with zeros to [w] digits *)
Definition pad_str (w : nat) (n : Z) : string :=
  let s := nat_str n in
  PyStr.repeat "0" (w - String.length s) ++ s.

(** [num / den] rounded to the nearest integer, ties to even
    ([0 <= num], [0 < den]) *)
Definition div_half_even (num den : Z) : Z :=
  let q := num / den in
  let r := num mod den in
  match 2 * r ?= den with
  | Lt => q
  | Gt => q + 1
  | Eq => if Z.even q then q else q + 1
  end.

(** [m * 2^e * 10^p] rounded to the nearest integer, ties to even *)
Definition scaled_round (m e : Z) (p : nat) : Z :=
  let t := m * 10 ^ Z.of_nat p in
  if 0 <=? e then t * 2 ^ e else div_half_even t (2 ^ (- e)).

(** The digits of a non-negative integer grouped in threes by [,] *)
Fixpoint group3 (fuel : nat) (n : Z) : string :=
  match fuel with
  | O => nat_str n
  | S k =>
      if n <? 1000 then nat_str n
      else group3 k (n / 1000) ++ "," ++ pad_str 3 (n mod 1000)
  end.

Definition int_part (comma : bool) (n : Z) : string :=
  if comma then group3 (Z.to_nat (Z.log2 n)) n else nat_str n.

Definition sign_str (s : bool) : string := if s then "-" else "".

Definition fixed_digits (comma : bool) (p : nat) (s : bool) (n : Z) : string :=
  let b := 10 ^ Z.of_nat p in
  sign_str s ++ int_part comma (n / b) ++
  match p with
  | O => ""
  | _ => "." ++ pad_str p (n mod b)
  end.

(** [f"{x:.pf}"], and [f"{x:,.pf}"] when [comma] is set *)
Definition format_fixed (comma : bool) (p : nat) (x : float) : string :=
  match Prim2SF x with
  | S754_nan => "nan"
  | S754_infinity s => sign_str s ++ "inf"
  | S754_zero s => fixed_digits comma p s 0
  | S754_finite s m e => fixed_digits comma p s (scaled_round (Z.pos m) e p)
  end.

Definition format_f : nat -> float -> string := format_fixed false.
Definition format_comma_f : nat -> float -> string := format_fixed true.

(** *** [str(x)] / [repr(x)]: the shortest decimal that reads back as [x] *)

(** Sign of [d * 10^j - n * 2^e] for non-negative [d] and [n] *)
Definition cmp_dec_bin (d j n e : Z) : comparison :=
  (d * 10 ^ Z.max j 0 * 2 ^ Z.max (- e) 0 ?= n * 2 ^ Z.max e 0 * 10 ^ Z.max (- j) 0).

(** [d * 10^j] reads back as [m * 2^e]: it lies within half a gap of it, the
    bounds included when [m] is even.  The gap below the least mantissa of a
    binade is half the gap above. *)
Definition reads_back (m e d j : Z) : bool :=
  let lo := if (m =? 2 ^ 52) && (-1074 <? e) then 4 * m - 1 else 4 * m - 2 in
  let hi := 4 * m + 2 in
  match cmp_dec_bin d j lo (e - 2), cmp_dec_bin d j hi (e - 2) with
  | Gt, Lt => true
  | Eq, Lt | Gt, Eq => Z.even m
  | _, _ => false
  end.

(** [floor (m * 2^e / 10^j)] *)
Definition floor_dec (m e j : Z) : Z :=
  (m * 2 ^ Z.max e 0 * 10 ^ Z.max (- j) 0) / (2 ^ Z.max (- e) 0 * 10 ^ Z.max j 0).

(** The least [k] from [k0] on with [m * 2^e < 10^k] *)
Fixpoint dec_exponent (fuel : nat) (m e k0 : Z) : Z :=
  match fuel with
  | O => k0
  | S f =>
      match cmp_dec_bin 1 k0 m e with
      | Gt => k0
      | _ => dec_exponent f m e (k0 + 1)
      end
  end.

(** Of the two [p]-digit decimals around [m * 2^e], the nearer one that
    reads back, if any *)
Definition candidate (m e k : Z) (p : Z) : option (Z * Z) :=
  let j := k - p in
  let d := floor_dec m e j in
  let lo_ok := reads_back m e d j in
  let hi_ok := reads_back m e (d + 1) j in
  match lo_ok, hi_ok with
  | true, false => Some (d, j)
  | false, true => Some (d + 1, j)
  | false, false => None
  | true, true =>
      (* nearer of the two: compare (2d + 1) * 10^j with 2 * m * 2^e *)
      match cmp_dec_bin (2 * d + 1) j (2 * m) e with
      | Lt => Some (d + 1, j)
      | Gt => Some (d, j)
      | Eq => Some (if Z.even d then d else d + 1, j)
      end
  end.

Fixpoint shortest (fuel : nat) (m e k p : Z) : Z * Z :=
  match fuel with
  | O => (floor_dec m e (k - p), k - p)
  | S f =>
      match candidate m e k p with
      | Some r => r
      | None => shortest f m e k (p + 1)
      end
  end.

Fixpoint strip_zeros (fuel : nat) (d j : Z) : Z * Z :=
  match fuel with
  | O => (d, j)
  | S f => if (0 <? d) && (d mod 10 =? 0) then strip_zeros f (d / 10) (j + 1) else (d, j)
  end.

(** The digits and the position of the decimal point: the value is
    [0.ds * 10^decpt]. *)
Definition shortest_digits (m e : Z) : string * Z :=
  let k0 := (Z.log2 m + e) * 30103 / 100000 - 1 in
  let k := dec_exponent 4 m e k0 in
  let '(d, j) := shortest 17 m e k 1 in
  let '(d, j) := strip_zeros 17 d j in
  let ds := nat_str d in
  (ds, Z.of_nat (String.length ds) + j).

Definition repr_digits (ds : string) (decpt : Z) : string :=
  let n := Z.of_nat (String.length ds) in
  if (-4 <? decpt) && (decpt <=? 16) then
    if decpt <=? 0 then "0." ++ PyStr.repeat "0" (Z.to_nat (- decpt)) ++ ds
    else if n <=? decpt then ds ++ PyStr.repeat "0" (Z.to_nat (decpt - n)) ++ ".0"
    else PyStr.take (Z.to_nat decpt) ds ++ "." ++ PyStr.drop (Z.to_nat decpt) ds
  else
    let x := decpt - 1 in
    PyStr.take 1 ds ++ (if 1 <? n then "." ++ PyStr.drop 1 ds else "") ++
    "e" ++ (if x <? 0 then "-" else "+") ++ pad_str 2 (Z.abs x).

(** [str(x)] *)
Definition repr (x : float) : string :=
  match Prim2SF x with
  | S754_nan => "nan"
  | S754_infinity s => sign_str s ++ "inf"
  | S754_zero s => sign_str s ++ "0.0"
  | S754_finite s m e =>
      let '(ds, decpt) := shortest_digits (Z.pos m) e in
      sign_str s ++ repr_digits ds decpt
  end.

End PyFloat.

(** The newline character of Python's ["\n"] *)
Definition nl : string := String (ascii_of_nat 10) EmptyString.

(** ** config.py *)

Record TradingConfig := {
  api_key : string;
  api_secret : string;
  trading_mode : string;
  max_order_usd : float;
  trading_pair : string
}.

(** [TradingConfig.is_dry_run] *)
Definition is_dry_run (config : TradingConfig) : bool :=
  negb (String.eqb (PyStr.lower (trading_mode config)) "live").

(** The [masked_key] local of [print_config_summary] *)
Definition masked_key (key : string) : string :=
  if (8 <? String.length key)%nat
  then PyStr.take 4 key ++ "..." ++ PyStr.take_last 4 key
  else "****".

(** [print_config_summary]: the arguments of its [print] calls, in order *)
Definition print_config_summary (config : TradingConfig) : list string :=
  [ nl ++ PyStr.repeat "=" 50;
    "CONFIGURATION SUMMARY";
    PyStr.repeat "=" 50;
    "API Key:        " ++ masked_key (api_key config);
    "Trading Mode:   " ++ PyStr.upper (trading_mode config);
    "Trading Pair:   " ++ trading_pair config;
    "Max Order:      $" ++ PyFloat.format_f 2 (max_order_usd config);
    if is_dry_run config
    then nl ++ "[DRY RUN MODE] No real trades will be executed"
    else nl ++ "[LIVE MODE] Real trades WILL be executed!";
    PyStr.repeat "=" 50 ++ nl ].

(** What the [print] calls write: each argument followed by a newline *)
Definition stdout_of (prints : list string) : string :=
  fold_right (fun line rest => line ++ nl ++ rest) "" prints.

(** ** The environment of trading_bot.py *)

(** The outcome of evaluating a Python expression: its value, or the
    [str(e)] of the exception it raises. *)
Inductive py (A : Type) : Type :=
| Returns (a : A)
| Raises (e : string).
Arguments Returns {A} a.
Arguments Raises {A} e.

(** A value inside an SDK response, as the bot looks at it: through [str]
    (when interpolated in a log message) and through [float]. *)
Record Field := { text : string; as_float : py float }.

Record Account := { currency : string; available_balance_value : Field }.

(** What [client.get_accounts()] returns: a falsy value, an object without
    an [accounts] attribute ([e] is the [AttributeError] text of reading
    it), or an object whose [accounts] attribute is [None] or a list. *)
Inductive AccountsResponse :=
| AccountsFalsy
| AccountsNoAttr (e : string)
| AccountsObj (accounts : option (list Account)).

Record Product := { product_price : Field }.

Record BookLevel := { level_price : Field; level_size : Field }.

(** [order_book.pricebook]; a side is [None] when the attribute is missing
    or holds [None]. *)
Record PriceBook := {
  pricebook_bids : option (list BookLevel);
  pricebook_asks : option (list BookLevel)
}.

(** The acknowledgement of [market_order_buy]; [None] when it has no
    [order_id] attribute. *)
Record OrderAck := { ack_order_id : option string }.

(** Calls on the exchange client *)
Inductive Call :=
| GetAccounts
| GetProduct (product_id : string)
| GetProductBook (product_id : string) (limit : Z)
| MarketOrderBuy (client_order_id product_id quote_size : string).

(** The exchange client and the two ambient sources of freshness.  A client
    method answers by the arguments and by the number of client calls made
    before; for responses, [None] is a falsy value (for the order book also
    an object without [pricebook]).  [uuid4 k] is the 128-bit integer of the
    [k]-th UUID drawn, [now_isoformat k] the [k]-th reading of the clock. *)
Record Env := {
  get_accounts : nat -> py AccountsResponse;
  get_product : nat -> string -> py (option Product);
  get_product_book : nat -> string -> Z -> py (option PriceBook);
  market_order_buy : nat -> string -> string -> string -> py (option OrderAck);
  uuid4 : nat -> N;
  now_isoformat : nat -> string
}.

Inductive Level := DEBUG | INFO | WARNING | ERROR.

(** Everything the bot does to the outside, in order *)
Record World := {
  calls : list Call;
  log : list (Level * string);
  uuids_drawn : nat;
  clock_reads : nat
}.

Definition empty_world : World :=
  {| calls := []; log := []; uuids_drawn := 0; clock_reads := 0 |}.

(** *** Methods that cannot raise, and bodies of [try] blocks *)

Definition M (A : Type) : Type := World -> A * World.
Definition T (A : Type) : Type := World -> py A * World.

Definition ret {A} (a : A) : M A := fun w => (a, w).
Definition bind {A B} (c : M A) (k : A -> M B) : M B :=
  fun w => let '(a, w') := c w in k a w'.

Definition tret {A} (a : A) : T A := fun w => (Returns a, w).
Definition tbind {A B} (c : T A) (k : A -> T B) : T B :=
  fun w => match c w with
           | (Returns a, w') => k a w'
           | (Raises e, w') => (Raises e, w')
           end.

Definition lift {A} (c : M A) : T A := fun w => let '(a, w') := c w in (Returns a, w').
Definition eval {A} (v : py A) : T A := fun w => (v, w).
Definition raise {A} (e : string) : T A := eval (Raises e).

(** [try: body  except Exception as e: handler e] *)
Definition try_except {A} (body : T A) (handler : string -> M A) : M A :=
  fun w => match body w with
           | (Returns a, w') => (a, w')
           | (Raises e, w') => handler e w'
           end.

Declare Scope bot_scope.
Delimit Scope bot_scope with bot.
Notation "x <- c ;; k" := (bind c (fun x => k))
  (at level 100, c at next level, right associativity) : bot_scope.
Notation "c ;; k" := (bind c (fun _ => k))
  (at level 100, right associativity) : bot_scope.
Notation "x <~ c ;; k" := (tbind c (fun x => k))
  (at level 100, c at next level, right associativity) : bot_scope.
Notation "c ;;; k" := (tbind c (fun _ => k))
  (at level 100, right associativity) : bot_scope.

(** [self.logger.<level>(msg)] *)
Definition logger (lvl : Level) (msg : string) : M unit :=
  fun w => (tt, {| calls := calls w; log := log w ++ [(lvl, msg)];
                   uuids_drawn := uuids_drawn w; clock_reads := clock_reads w |}).

Definition record_call (c : Call) (w : World) : World :=
  {| calls := calls w ++ [c]; log := log w;
     uuids_drawn := uuids_drawn w; clock_reads := clock_reads w |}.

(** *** UUIDs *)

Definition hex_char (d : N) : ascii :=
  match d with
  | 0 => "0" | 1 => "1" | 2 => "2" | 3 => "3" | 4 => "4" | 5 => "5"
  | 6 => "6" | 7 => "7" | 8 => "8" | 9 => "9" | 10 => "a" | 11 => "b"
  | 12 => "c" | 13 => "d" | 14 => "e" | _ => "f"
  end%N%char.

(** The lowest [n] hex digits of [v], most significant first *)
Fixpoint hex_digits (n : nat) (v : N) : string :=
  match n with
  | O => EmptyString
  | S k => String (hex_char ((v / 16 ^ N.of_nat k) mod 16)%N) (hex_digits k v)
  end.

(** [u.hex] *)
Definition uuid_hex (u : N) : string := hex_digits 32 u.

(** [str(u)] *)
Definition uuid_str (u : N) : string :=
  let h := uuid_hex u in
  substring 0 8 h ++ "-" ++ substring 8 4 h ++ "-" ++ substring 12 4 h ++ "-" ++
  substring 16 4 h ++ "-" ++ substring 20 12 h.

(** ** trading_bot.py: class TradingBot *)

(** An order-book level as [get_order_book] returns it:
    [{'price': ..., 'size': ...}] *)
Record PriceLevel := { price : float; size : float }.

(** The dict [get_order_book] returns: [{'bids': ..., 'asks': ...}] *)
Record OrderBook := { bids : list PriceLevel; asks : list PriceLevel }.

(** The dicts [place_market_buy] returns: string keys to string values, in
    insertion order *)
Definition dict : Type := list (string * string).

Fixpoint dict_get (k : string) (d : dict) : option string :=
  match d with
  | [] => None
  | (k', v) :: r => if String.eqb k k' then Some v else dict_get k r
  end.

(** [l[:limit]] *)
Definition slice_to {A} (limit : Z) (l : list A) : list A :=
  if (0 <=? limit)%Z then firstn (Z.to_nat limit) l
  else firstn (List.length l - Z.to_nat (- limit)) l.

(** Python's [x / y] on floats *)
Definition float_div (x y : float) : py float :=
  if PrimFloat.eqb y 0 then Raises "float division by zero"
  else Returns (x / y)%float.

(** [bool(x)] for a float *)
Definition float_truthy (x : float) : bool := negb (PrimFloat.eqb x 0).

Section TradingBot.

Variable env : Env.
Variable config : TradingConfig.

Open Scope bot_scope.

(** *** The client and the ambient sources *)

Definition client_get_accounts : T AccountsResponse :=
  fun w => (get_accounts env (List.length (calls w)), record_call GetAccounts w).

Definition client_get_product (product_id : string) : T (option Product) :=
  fun w => (get_product env (List.length (calls w)) product_id,
            record_call (GetProduct product_id) w).

Definition client_get_product_book (product_id : string) (limit : Z)
  : T (option PriceBook) :=
  fun w => (get_product_book env (List.length (calls w)) product_id limit,
            record_call (GetProductBook product_id limit) w).

Definition client_market_order_buy (client_order_id product_id quote_size : string)
  : T (option OrderAck) :=
  fun w => (market_order_buy env (List.length (calls w))
              client_order_id product_id quote_size,
            record_call (MarketOrderBuy client_order_id product_id quote_size) w).

(** [uuid.uuid4()] *)
Definition uuid_uuid4 : M N :=
  fun w => (uuid4 env (uuids_drawn w),
            {| calls := calls w; log := log w;
               uuids_drawn := S (uuids_drawn w); clock_reads := clock_reads w |}).

(** [datetime.now().isoformat()] *)
Definition datetime_now_isoformat : M string :=
  fun w => (now_isoformat env (clock_reads w),
            {| calls := calls w; log := log w;
               uuids_drawn := uuids_drawn w; clock_reads := S (clock_reads w) |}).

(** *** validate_credentials *)

Fixpoint log_accounts (l : list Account) : M unit :=
  match l with
  | [] => ret tt
  | account :: r =>
      logger DEBUG ("  Account: " ++ currency account ++ " - " ++
                    "Available: " ++ text (available_balance_value account)) ;;
      log_accounts r
  end.

Definition validate_credentials : M bool :=
  logger INFO "Validating API credentials..." ;;
  try_except
    (accounts <~ client_get_accounts ;;
     match accounts with
     | AccountsObj l =>
         let account_count :=
           match l with
           | Some a => List.length a
           | None => 0
           end in
         lift (logger INFO ("Credentials valid! Found " ++
                            PyFloat.nat_str (Z.of_nat account_count) ++ " account(s)")) ;;;
         match l with
         | None => raise "'NoneType' object is not subscriptable"
         | Some a => lift (log_accounts (firstn 5 a)) ;;; tret true
         end
     | _ =>
         lift (logger ERROR "Unexpected response format from API") ;;;
         tret false
     end)
    (fun e =>
       logger ERROR ("Credential validation failed: " ++ e) ;;
       logger ERROR "Please check your API key and secret" ;;
       ret false).

(** *** get_current_price *)

Definition get_current_price : M (option float) :=
  logger INFO ("Fetching current price for " ++ trading_pair config) ;;
  try_except
    (product <~ client_get_product (trading_pair config) ;;
     match product with
     | Some p =>
         price <~ eval (as_float (product_price p)) ;;
         lift (logger INFO ("Current " ++ trading_pair config ++ " price: $" ++
                            PyFloat.format_comma_f 2 price)) ;;;
         tret (Some price)
     | None =>
         lift (logger ERROR "No product data received") ;;;
         tret None
     end)
    (fun e =>
       logger ERROR ("Failed to get price: " ++ e) ;;
       ret None).

(** *** get_order_book *)

(** The loop [for bid in levels: out.append({'price': float(bid.price),
    'size': float(bid.size)})] *)
Fixpoint parse_levels (levels : list BookLevel) : py (list PriceLevel) :=
  match levels with
  | [] => Returns []
  | l :: r =>
      match as_float (level_price l) with
      | Raises e => Raises e
      | Returns p =>
          match as_float (level_size l) with
          | Raises e => Raises e
          | Returns s =>
              match parse_levels r with
              | Raises e => Raises e
              | Returns out => Returns ({| price := p; size := s |} :: out)
              end
          end
      end
  end.

(** One side of the book: [[]] unless the attribute is there and truthy *)
Definition parse_side (limit : Z) (side : option (list BookLevel))
  : py (list PriceLevel) :=
  match side with
  | Some ((_ :: _) as levels) => parse_levels (slice_to limit levels)
  | _ => Returns []
  end.

Definition log_book_summary (bids asks : list PriceLevel) : T unit :=
  lift (match bids with
        | b :: _ => logger INFO ("Best bid: $" ++ PyFloat.format_comma_f 2 (price b))
        | [] => ret tt
        end) ;;;
  lift (match asks with
        | a :: _ => logger INFO ("Best ask: $" ++ PyFloat.format_comma_f 2 (price a))
        | [] => ret tt
        end) ;;;
  match bids, asks with
  | b :: _, a :: _ =>
      let spread := (price a - price b)%float in
      ratio <~ eval (float_div spread (price a)) ;;
      let spread_pct := (ratio * 100)%float in
      lift (logger INFO ("Spread: $" ++ PyFloat.format_f 2 spread ++
                         " (" ++ PyFloat.format_f 4 spread_pct ++ "%)"))
  | _, _ => tret tt
  end.

Definition get_order_book (limit : Z) : M (option OrderBook) :=
  logger INFO ("Fetching order book for " ++ trading_pair config) ;;
  try_except
    (order_book <~ client_get_product_book (trading_pair config) limit ;;
     match order_book with
     | Some pricebook =>
         bids <~ eval (parse_side limit (pricebook_bids pricebook)) ;;
         asks <~ eval (parse_side limit (pricebook_asks pricebook)) ;;
         log_book_summary bids asks ;;;
         tret (Some {| bids := bids; asks := asks |})
     | None =>
         lift (logger WARNING "Empty order book received") ;;;
         tret None
     end)
    (fun e =>
       logger ERROR ("Failed to get order book: " ++ e) ;;
       ret None).

(** *** get_account_balance *)

(** The loop over [accounts.accounts]: [Some balance] is the [return] inside
    the loop, [None] is falling out of it. *)
Fixpoint find_balance (cur : string) (l : list Account) : T (option float) :=
  match l with
  | [] => tret None
  | account :: r =>
      if String.eqb (currency account) cur then
        balance <~ eval (as_float (available_balance_value account)) ;;
        lift (logger INFO (cur ++ " balance: " ++ PyFloat.repr balance)) ;;;
        tret (Some balance)
      else find_balance cur r
  end.

Definition get_account_balance (cur : string) : M (option float) :=
  logger DEBUG ("Fetching " ++ cur ++ " balance") ;;
  try_except
    (accounts <~ client_get_accounts ;;
     found <~ match accounts with
              | AccountsFalsy => tret None
              | AccountsNoAttr e => raise e
              | AccountsObj (Some l) => find_balance cur l
              | AccountsObj None => tret None
              end ;;
     match found with
     | Some balance => tret (Some balance)
     | None =>
         lift (logger WARNING ("No " ++ cur ++ " account found")) ;;;
         tret None
     end)
    (fun e =>
       logger ERROR ("Failed to get balance: " ++ e) ;;
       ret None).

(** *** place_market_buy and its two branches *)

Definition rule : string := PyStr.repeat "=" 50.

Definition _simulate_market_buy (usd_amount : float) : M dict :=
  logger INFO "[DRY RUN] Simulating market buy order..." ;;
  fetched <- get_current_price ;;
  let current_price :=
    match fetched with
    | Some p => if float_truthy p then p else 0%float
    | None => 0%float
    end in
  let estimated_quantity :=
    if (0 <? current_price)%float then (usd_amount / current_price)%float
    else 0%float in
  let base_currency := PyStr.split_head "-" (trading_pair config) in
  u <- uuid_uuid4 ;;
  ts <- datetime_now_isoformat ;;
  let simulated_order : dict :=
    [ ("order_id", "DRY-RUN-" ++ PyStr.upper (PyStr.take 8 (uuid_hex u)));
      ("product_id", trading_pair config);
      ("side", "BUY");
      ("type", "MARKET");
      ("status", "SIMULATED");
      ("quote_size", PyFloat.format_f 2 usd_amount);
      ("estimated_fill_price", PyFloat.format_f 2 current_price);
      ("estimated_quantity", PyFloat.format_f 8 estimated_quantity);
      ("timestamp", ts) ] in
  logger INFO rule ;;
  logger INFO "[DRY RUN] SIMULATED ORDER DETAILS" ;;
  logger INFO rule ;;
  logger INFO ("Order ID:       " ++ "DRY-RUN-" ++ PyStr.upper (PyStr.take 8 (uuid_hex u))) ;;
  logger INFO ("Product:        " ++ trading_pair config) ;;
  logger INFO ("Side:           " ++ "BUY") ;;
  logger INFO ("Amount:         $" ++ PyFloat.format_f 2 usd_amount ++ " USD") ;;
  logger INFO ("Est. Price:     $" ++ PyFloat.format_comma_f 2 current_price) ;;
  logger INFO ("Est. Quantity:  " ++ PyFloat.format_f 8 estimated_quantity ++
               " " ++ base_currency) ;;
  logger INFO rule ;;
  logger INFO "[DRY RUN] No real order was placed" ;;
  ret simulated_order.

(** The [try] block of [_execute_market_buy] with its handler *)
Definition submit_market_buy (usd_amount : float) : M (option dict) :=
  try_except
    (u <~ lift uuid_uuid4 ;;
     let client_order_id := uuid_str u in
     lift (logger INFO ("Placing market buy order for $" ++
                        PyFloat.format_f 2 usd_amount ++ "...")) ;;;
     order <~ client_market_order_buy client_order_id (trading_pair config)
                (PyFloat.repr usd_amount) ;;
     match order with
     | Some ack =>
         lift (logger INFO rule) ;;;
         lift (logger INFO "ORDER PLACED SUCCESSFULLY") ;;;
         lift (logger INFO rule) ;;;
         ts <~ lift datetime_now_isoformat ;;
         let order_id :=
           match ack_order_id ack with
           | Some i => i
           | None => "N/A"
           end in
         let order_details : dict :=
           [ ("order_id", order_id);
             ("client_order_id", client_order_id);
             ("product_id", trading_pair config);
             ("side", "BUY");
             ("type", "MARKET");
             ("quote_size", PyFloat.repr usd_amount);
             ("status", "PLACED");
             ("timestamp", ts) ] in
         lift (logger INFO ("Order ID:     " ++ order_id)) ;;;
         lift (logger INFO ("Product:      " ++ trading_pair config)) ;;;
         lift (logger INFO ("Amount:       $" ++ PyFloat.format_f 2 usd_amount ++ " USD")) ;;;
         lift (logger INFO rule) ;;;
         tret (Some order_details)
     | None =>
         lift (logger ERROR "Order returned empty response") ;;;
         tret None
     end)
    (fun e =>
       logger ERROR ("Order execution failed: " ++ e) ;;
       logger ERROR "Check your account balance and API permissions" ;;
       ret None).

Definition _execute_market_buy (usd_amount : float) : M (option dict) :=
  logger WARNING rule ;;
  logger WARNING "EXECUTING LIVE MARKET ORDER" ;;
  logger WARNING rule ;;
  usd_balance <- get_account_balance "USD" ;;
  match usd_balance with
  | Some b =>
      if (b <? usd_amount)%float then
        logger ERROR ("Insufficient USD balance: $" ++ PyFloat.format_f 2 b ++
                      " < $" ++ PyFloat.format_f 2 usd_amount) ;;
        ret None
      else submit_market_buy usd_amount
  | None => submit_market_buy usd_amount
  end.

Definition place_market_buy (usd_amount : float) : M (option dict) :=
  logger INFO ("Preparing market buy order: $" ++ PyFloat.format_f 2 usd_amount) ;;
  if (usd_amount <=? 0)%float then
    logger ERROR "Order amount must be positive" ;;
    ret None
  else if (max_order_usd config <? usd_amount)%float then
    logger ERROR ("Order amount $" ++ PyFloat.format_f 2 usd_amount ++
                  " exceeds maximum " ++
                  "allowed $" ++ PyFloat.format_f 2 (max_order_usd config)) ;;
    logger ERROR "Increase MAX_ORDER_USD in .env if this was intentional" ;;
    ret None
  else if (usd_amount <? 1)%float then
    logger ERROR "Order amount must be at least $1.00" ;;
    ret None
  else if is_dry_run config then
    o <- _simulate_market_buy usd_amount ;;
    ret (Some o)
  else _execute_market_buy usd_amount.

(** *** run_diagnostics *)

Definition run_diagnostics : M bool :=
  logger INFO rule ;;
  logger INFO "RUNNING DIAGNOSTICS" ;;
  logger INFO rule ;;
  let all_passed := true in
  logger INFO (nl ++ "[Test 1/4] Validating credentials...") ;;
  valid <- validate_credentials ;;
  all_passed <-
    (if negb valid
     then logger ERROR "FAILED: Credential validation" ;; ret false
     else logger INFO "PASSED: Credentials are valid" ;; ret all_passed) ;;
  logger INFO (nl ++ "[Test 2/4] Fetching price data...") ;;
  fetched <- get_current_price ;;
  all_passed <-
    match fetched with
    | None => logger ERROR "FAILED: Could not fetch price" ;; ret false
    | Some p =>
        logger INFO ("PASSED: Price fetched ($" ++ PyFloat.format_comma_f 2 p ++ ")") ;;
        ret all_passed
    end ;;
  logger INFO (nl ++ "[Test 3/4] Fetching order book...") ;;
  order_book <- get_order_book 5 ;;
  all_passed <-
    match order_book with
    | None => logger ERROR "FAILED: Could not fetch order book" ;; ret false
    | Some _ => logger INFO "PASSED: Order book fetched" ;; ret all_passed
    end ;;
  logger INFO (nl ++ "[Test 4/4] Fetching account balance...") ;;
  balance <- get_account_balance "USD" ;;
  match balance with
  | None =>
      logger WARNING "WARNING: Could not fetch USD balance (may not have USD account)"
  | Some b => logger INFO ("PASSED: USD balance is $" ++ PyFloat.format_f 2 b)
  end ;;
  logger INFO (nl ++ rule) ;;
  (if all_passed
   then logger INFO "ALL DIAGNOSTICS PASSED" ;;
        logger INFO "Your bot is ready to trade!"
   else logger ERROR "SOME DIAGNOSTICS FAILED" ;;
        logger ERROR "Please fix the issues above before trading") ;;
  logger INFO rule ;;
  ret all_passed.

End TradingBot.

(** ** config.py: load_config *)

(** How a function ends: it returns, it calls [sys.exit(code)], or an
    exception ([e] is its [str]) leaves it. *)
Inductive Exit (A : Type) : Type :=
| Done (a : A)
| SystemExit (code : Z)
| Uncaught (e : string).
Arguments Done {A} a.
Arguments SystemExit {A} code.
Arguments Uncaught {A} e.

(** [os.getenv(key, default)] on the environment as [load_dotenv()] leaves
    it *)
Definition os_getenv (environ : string -> option string) (key default : string)
  : string :=
  match environ key with
  | Some v => v
  | None => default
  end.

(** [load_config]: what it prints and how it ends.  [float_of_str] is
    Python's [float] on strings. *)
Definition load_config (environ : string -> option string)
    (float_of_str : string -> py float) : list string * Exit TradingConfig :=
  let api_key := os_getenv environ "COINBASE_API_KEY" "" in
  let api_secret := os_getenv environ "COINBASE_API_SECRET" "" in
  if String.eqb api_key "" || String.eqb api_key "your_api_key_here" then
    ([ "ERROR: COINBASE_API_KEY not set or still has placeholder value";
       "Please copy .env.example to .env and add your API credentials" ],
     SystemExit 1)
  else if String.eqb api_secret "" || String.eqb api_secret "your_api_secret_here" then
    ([ "ERROR: COINBASE_API_SECRET not set or still has placeholder value";
       "Please copy .env.example to .env and add your API credentials" ],
     SystemExit 1)
  else
    let trading_mode := os_getenv environ "TRADING_MODE" "dry_run" in
    match float_of_str (os_getenv environ "MAX_ORDER_USD" "50.0") with
    | Raises e => ([], Uncaught e)
    | Returns max_order_usd =>
        let trading_pair := os_getenv environ "TRADING_PAIR" "BTC-USD" in
        ((if (100 <? max_order_usd)%float
          then [ "WARNING: MAX_ORDER_USD is set to $" ++ PyFloat.format_f 2 max_order_usd;
                 "This is higher than recommended for testing. Are you sure?" ]
          else []),
         Done {| api_key := api_key;
                 api_secret := api_secret;
                 trading_mode := trading_mode;
                 max_order_usd := max_order_usd;
                 trading_pair := trading_pair |})
    end.

(** ** main.py *)

(** The parsed command line: [args.diagnose], [args.price], [args.orderbook],
    [args.buy], [args.dry_run], [args.live] *)
Record Args := {
  arg_diagnose : bool;
  arg_price : bool;
  arg_orderbook : bool;
  arg_buy : option float;
  arg_dry_run : bool;
  arg_live : bool
}.

(** [main], the override of the trading mode: the configuration after it
    and what is printed *)
Definition override_mode (args : Args) (config : TradingConfig)
  : list string * TradingConfig :=
  if arg_dry_run args then
    ([ "[OVERRIDE] Forcing DRY RUN mode" ],
     {| api_key := api_key config; api_secret := api_secret config;
        trading_mode := "dry_run";
        max_order_usd := max_order_usd config; trading_pair := trading_pair config |})
  else if arg_live args then
    ([ "[OVERRIDE] Forcing LIVE mode - Real trades will execute!" ],
     {| api_key := api_key config; api_secret := api_secret config;
        trading_mode := "live";
        max_order_usd := max_order_usd config; trading_pair := trading_pair config |})
  else ([], config).

(** [s.strip()]: Python's white space on the ASCII range *)
Definition is_space (c : ascii) : bool :=
  let n := nat_of_ascii c in
  ((9 <=? n)%nat && (n <=? 13)%nat) || ((28 <=? n)%nat && (n <=? 32)%nat).

Fixpoint lstrip (s : string) : string :=
  match s with
  | String c r => if is_space c then lstrip r else s
  | EmptyString => EmptyString
  end.

Fixpoint rstrip (s : string) : string :=
  match s with
  | String c r =>
      match rstrip r with
      | EmptyString => if is_space c then EmptyString else String c EmptyString
      | r' => String c r'
      end
  | EmptyString => EmptyString
  end.

Definition strip (s : string) : string := rstrip (lstrip s).

(** The terminal session of [main]: the bot's world, what [print] and
    [input] have written to standard output (the bot's log records are in
    the world), and how many lines have been read. *)
Record Session := {
  world : World;
  stdout : list string;
  lines_read : nat
}.

Definition start (w : World) : Session :=
  {| world := w; stdout := []; lines_read := 0 |}.

(** [print(s)] *)
Definition print (s : string) (t : Session) : Session :=
  {| world := world t; stdout := stdout t ++ [(s ++ nl)%string]; lines_read := lines_read t |}.

Definition print_all (l : list string) (t : Session) : Session :=
  fold_left (fun t s => print s t) l t.

(** [input(prompt)]: [typed k] is the [k]-th line typed *)
Definition input (typed : nat -> py string) (prompt : string) (t : Session)
  : py string * Session :=
  (typed (lines_read t),
   {| world := world t; stdout := stdout t ++ [prompt]; lines_read := S (lines_read t) |}).

(** A method of the bot, run in the session *)
Definition on_bot {A} (c : M A) (t : Session) : A * Session :=
  let '(a, w) := c (world t) in
  (a, {| world := w; stdout := stdout t; lines_read := lines_read t |}).

(** [bool(result)] for what [place_market_buy] returns: [None] and the
    empty dict are falsy *)
Definition result_truthy (result : option dict) : bool :=
  match result with
  | Some (_ :: _) => true
  | _ => false
  end.

(** The lines [main] prints for one side of the book *)
Definition book_lines (levels : list PriceLevel) : list string :=
  List.map (fun l => "  $" ++ PyFloat.format_comma_f 2 (price l) ++ " - " ++
                     PyFloat.format_f 8 (size l) ++ " BTC") levels.

(** [main] from the first command on, with the bot initialised: the
    commands of the command line, down to the call of [interactive_menu]
    ([Done tt]). *)
Definition main_commands (env : Env) (typed : nat -> py string) (config : TradingConfig)
    (args : Args) (t : Session) : Exit unit * Session :=
  if arg_diagnose args then
    let '(success, t) := on_bot (run_diagnostics env config) t in
    (SystemExit (if success then 0 else 1), t)
  else if arg_price args then
    let '(fetched, t) := on_bot (get_current_price env config) t in
    (SystemExit (match fetched with
                 | Some p => if float_truthy p then 0 else 1
                 | None => 1
                 end), t)
  else if arg_orderbook args then
    let '(book, t) := on_bot (get_order_book env config 10) t in
    match book with
    | Some b =>
        (SystemExit 0,
         print_all (book_lines (asks b))
           (print (nl ++ "--- ASKS ---")
              (print_all (book_lines (bids b)) (print (nl ++ "--- BIDS ---") t))))
    | None => (SystemExit 1, t)
    end
  else
    match arg_buy args with
    | Some amount =>
        let mode_str := if is_dry_run config then "DRY RUN" else "LIVE" in
        let t := print (nl ++ "You are about to place a $" ++ PyFloat.format_f 2 amount ++
                        " buy order (" ++ mode_str ++ ")") t in
        let t := if negb (is_dry_run config)
                 then print (nl ++ "WARNING: This is a LIVE order with REAL money!") t
                 else t in
        match input typed "Type 'yes' to confirm: " t with
        | (Raises e, t) => (Uncaught e, t)
        | (Returns line, t) =>
            let confirm := PyStr.lower (strip line) in
            if String.eqb confirm "yes" then
              let '(result, t) := on_bot (place_market_buy env config amount) t in
              (SystemExit (if result_truthy result then 0 else 1), t)
            else (SystemExit 0, print "Order cancelled." t)
        end
    | None => (Done tt, t)
    end.

(** * Vocabulary of the properties *)

(** The sixteen spellings of [live] *)
Definition live_spellings : list string :=
  [ "live"; "livE"; "liVe"; "liVE"; "lIve"; "lIvE"; "lIVe"; "lIVE";
    "Live"; "LivE"; "LiVe"; "LiVE"; "LIve"; "LIvE"; "LIVe"; "LIVE" ].

Definition with_secret (s : string) (c : TradingConfig) : TradingConfig :=
  {| api_key := api_key c; api_secret := s; trading_mode := trading_mode c;
     max_order_usd := max_order_usd c; trading_pair := trading_pair c |}.

Definition with_key (k : string) (c : TradingConfig) : TradingConfig :=
  {| api_key := k; api_secret := api_secret c; trading_mode := trading_mode c;
     max_order_usd := max_order_usd c; trading_pair := trading_pair c |}.

Definition with_mode (m : string) (c : TradingConfig) : TradingConfig :=
  {| api_key := api_key c; api_secret := api_secret c; trading_mode := m;
     max_order_usd := max_order_usd c; trading_pair := trading_pair c |}.

Definition with_max (m : float) (c : TradingConfig) : TradingConfig :=
  {| api_key := api_key c; api_secret := api_secret c; trading_mode := trading_mode c;
     max_order_usd := m; trading_pair := trading_pair c |}.

(** The call that places an order *)
Definition is_submission (c : Call) : bool :=
  match c with
  | MarketOrderBuy _ _ _ => true
  | _ => false
  end.

(** [x is not None] *)
Definition is_some {A} (o : option A) : bool :=
  match o with
  | Some _ => true
  | None => false
  end.

(** The price [_simulate_market_buy] computes with: the fetched one, and
    [0.0] when the fetch gave [None] or a zero *)
Definition simulation_price (fetched : option float) : float :=
  match fetched with
  | Some p => if float_truthy p then p else 0%float
  | None => 0%float
  end.

(** The sixteen hex digits *)
Definition hex_chars : list ascii :=
  [ "0"; "1"; "2"; "3"; "4"; "5"; "6"; "7";
    "8"; "9"; "a"; "b"; "c"; "d"; "e"; "f" ]%char.

(** *** Example configurations and environments *)

Definition dry_config : TradingConfig :=
  {| api_key := "organizations/acme/apiKeys/0001";
     api_secret := "s3cr3t-material";
     trading_mode := "dry_run";
     max_order_usd := 50;
     trading_pair := "BTC-USD" |}.

Definition live_config : TradingConfig := with_mode "live" dry_config.

Definition live_shouting : TradingConfig := with_mode "LIVE" dry_config.

Definition secret_equals_pair : TradingConfig :=
  {| api_key := "abcd.....";
     api_secret := "BTC-USD";
     trading_mode := "dry_run";
     max_order_usd := 50;
     trading_pair := "BTC-USD" |}.

Definition field_of (x : float) : Field :=
  {| text := PyFloat.repr x; as_float := Returns x |}.

Definition usd_account (balance : float) : Account :=
  {| currency := "USD"; available_balance_value := field_of balance |}.

(** Two version-4 UUIDs that agree on their first eight hex digits *)
Definition uuid_a : N := 0x3f2b8c1e9d4a4f6ab0c27e5d1a9f4c30%N.
Definition uuid_b : N := 0x3f2b8c1e17c54e0a9b3d6f208e4a7d12%N.

(** An exchange that answers every call: the accounts and the product are
    given, the book is empty, every order is acknowledged. *)
Definition exchange (accounts : py AccountsResponse) (product : py (option Product))
  : Env :=
  {| get_accounts := fun _ => accounts;
     get_product := fun _ _ => product;
     get_product_book := fun _ _ _ =>
       Returns (Some {| pricebook_bids := Some []; pricebook_asks := Some [] |});
     market_order_buy := fun _ _ _ _ =>
       Returns (Some {| ack_order_id := Some "5f1c9a77-order" |});
     uuid4 := fun k => match k with O => uuid_a | _ => uuid_b end;
     now_isoformat := fun _ => "2024-05-01T12:00:00.000000" |}.

Definition btc_at (p : float) : py (option Product) :=
  Returns (Some {| product_price := field_of p |}).

(** The exchange is unreachable for account reads *)
Definition accounts_down : py AccountsResponse := Raises "503 Service Unavailable".

Definition holding (balance : float) : py AccountsResponse :=
  Returns (AccountsObj (Some [usd_account balance])).

(** [w'] is [w] after the client calls [cs] and any number of log records,
    with no UUID drawn and no reading of the clock *)
Definition extends_by (cs : list Call) (w w' : World) : Prop :=
  calls w' = (calls w ++ cs)%list /\
  uuids_drawn w' = uuids_drawn w /\
  clock_reads w' = clock_reads w.

(** The amount gets past the three guards of [place_market_buy] *)
Definition passes_guards (config : TradingConfig) (usd_amount : float) : bool :=
  negb (usd_amount <=? 0)%float &&
  negb (max_order_usd config <? usd_amount)%float &&
  negb (usd_amount <? 1)%float.

(** [place_market_buy] after its guards: the dispatch on the mode *)
Definition dispatch (env : Env) (config : TradingConfig) (usd_amount : float)
  : M (option dict) :=
  if is_dry_run config
  then bind (_simulate_market_buy env config usd_amount) (fun o => ret (Some o))
  else _execute_market_buy env config usd_amount.

(** The first record of every [place_market_buy] *)
Definition preparing (usd_amount : float) : Level * string :=
  (INFO, "Preparing market buy order: $" ++ PyFloat.format_f 2 usd_amount).

(** A limit below the exchange's minimum *)
Definition tight_config : TradingConfig := with_max 0.5 dry_config.

(** All characters are hex digits *)
Fixpoint all_hex (s : string) : bool :=
  match s with
  | EmptyString => true
  | String c r => existsb (Ascii.eqb c) hex_chars && all_hex r
  end.

(** *** Order books *)

Definition level_of (p s : float) : BookLevel :=
  {| level_price := field_of p; level_size := field_of s |}.

(** [env] with every [get_product_book] answered by [book] *)
Definition with_book (book : py (option PriceBook)) (env : Env) : Env :=
  {| get_accounts := get_accounts env;
     get_product := get_product env;
     get_product_book := fun _ _ _ => book;
     market_order_buy := market_order_buy env;
     uuid4 := uuid4 env;
     now_isoformat := now_isoformat env |}.

(** A book whose best ask is 0 *)
Definition zero_ask_book : PriceBook :=
  {| pricebook_bids := Some [level_of 49990 1];
     pricebook_asks := Some [level_of 0 2; level_of 50010 1] |}.

(** A book with three levels a side *)
Definition deep_book : PriceBook :=
  {| pricebook_bids := Some [level_of 49990 1; level_of 49980 2; level_of 49970 3];
     pricebook_asks := Some [level_of 50010 1; level_of 50020 2; level_of 50030 3] |}.

(** [env] with every [market_order_buy] answered by [answer] *)
Definition with_orders (answer : py (option OrderAck)) (env : Env) : Env :=
  {| get_accounts := get_accounts env;
     get_product := get_product env;
     get_product_book := get_product_book env;
     market_order_buy := fun _ _ _ _ => answer;
     uuid4 := uuid4 env;
     now_isoformat := now_isoformat env |}.

(** *** Process environments and command lines *)

(** The environment holding the given variables *)
Definition environ_of (vars : list (string * string)) : string -> option string :=
  fun key => dict_get key vars.

(** [float] on the few strings the examples use *)
Definition float_of_example (s : string) : py float :=
  if String.eqb s "50.0" then Returns 50%float
  else if String.eqb s "250" then Returns 250%float
  else Raises ("could not convert string to float: '" ++ s ++ "'").

Definition credentials : list (string * string) :=
  [ ("COINBASE_API_KEY", "organizations/acme/apiKeys/0001");
    ("COINBASE_API_SECRET", "s3cr3t-material") ].

Definition no_args : Args :=
  {| arg_diagnose := false; arg_price := false; arg_orderbook := false;
     arg_buy := None; arg_dry_run := false; arg_live := false |}.

(** [--buy amount] *)
Definition buy_args (amount : float) : Args :=
  {| arg_diagnose := false; arg_price := false; arg_orderbook := false;
     arg_buy := Some amount; arg_dry_run := false; arg_live := false |}.

(** The same command line with [--dry-run] *)
Definition forcing_dry_run (args : Args) : Args :=
  {| arg_diagnose := arg_diagnose args; arg_price := arg_price args;
     arg_orderbook := arg_orderbook args; arg_buy := arg_buy args;
     arg_dry_run := true; arg_live := arg_live args |}.

(** The same command line with [--live] *)
Definition forcing_live (args : Args) : Args :=
  {| arg_diagnose := arg_diagnose args; arg_price := arg_price args;
     arg_orderbook := arg_orderbook args; arg_buy := arg_buy args;
     arg_dry_run := arg_dry_run args; arg_live := true |}.

(** Someone who types the same line at every prompt *)
Definition typing (line : string) : nat -> py string := fun _ => Returns line.

(** * Properties *)

(** ** Configuration *)

Lemma lower_char_cases (c : ascii) :
  c = PyStr.lower_char c \/
  c = PyStr.upper_char (PyStr.lower_char c) /\ PyStr.is_lower (PyStr.lower_char c) = true.
Proof.
  destruct c as [[] [] [] [] [] [] [] []]; vm_compute; auto.
Qed.

Lemma lower_char_is (c x : ascii) :
  PyStr.lower_char c = x ->
  c = x \/ c = PyStr.upper_char x /\ PyStr.is_lower x = true.
Proof. intros <-; apply lower_char_cases. Qed.

Lemma lower_live_spellings (s : string) :
  PyStr.lower s = "live" <-> In s live_spellings.
Proof.
  split.
  - destruct s as [|c1 [|c2 [|c3 [|c4 [|c5 r]]]]]; try discriminate.
    unfold PyStr.lower; simpl; intros E.
    injection E as E1 E2 E3 E4.
    apply lower_char_is in E1, E2, E3, E4.
    destruct E1 as [->|[-> _]], E2 as [->|[-> _]],
             E3 as [->|[-> _]], E4 as [->|[-> _]];
      vm_compute; tauto.
  - unfold live_spellings; simpl.
    intros H; repeat (destruct H as [<-|H]; [reflexivity|]); destruct H.
Qed.

Lemma is_dry_run_false (config : TradingConfig) :
  is_dry_run config = false <-> PyStr.lower (trading_mode config) = "live".
Proof.
  unfold is_dry_run; rewrite negb_false_iff; apply String.eqb_eq.
Qed.

Lemma is_dry_run_true (config : TradingConfig) :
  is_dry_run config = true <-> PyStr.lower (trading_mode config) <> "live".
Proof.
  unfold is_dry_run; rewrite negb_true_iff; apply String.eqb_neq.
Qed.

(** C4, as the claim states it, fails: with [trading_mode = "LIVE"] the
    mode differs from the exact string [live], yet [is_dry_run] is false. *)
Lemma is_dry_run_not_exact_match :
  String.eqb (trading_mode live_shouting) "live" = false /\
  is_dry_run live_shouting = false.
Proof. split; reflexivity. Qed.

(** C4 (amended): [is_dry_run] compares the lower-cased mode with [live]:
    it is false exactly for the sixteen upper/lower-case spellings of
    [live], and true for every other mode. *)
Theorem is_dry_run_case_insensitive (config : TradingConfig) :
  is_dry_run config = negb (String.eqb (PyStr.lower (trading_mode config)) "live") /\
  (is_dry_run config = false <-> In (trading_mode config) live_spellings).
Proof.
  split; [reflexivity|].
  rewrite <- lower_live_spellings; apply is_dry_run_false.
Qed.

(** *** The summary and the credentials *)

Lemma length_append (a b : string) :
  String.length (a ++ b) = String.length a + String.length b.
Proof. induction a; simpl; congruence. Qed.

Lemma length_take (n : nat) (s : string) : String.length (PyStr.take n s) <= n.
Proof.
  revert s; induction n; intros [|c s]; simpl; try lia.
  specialize (IHn s); lia.
Qed.

Lemma length_drop (n : nat) (s : string) :
  String.length (PyStr.drop n s) = String.length s - n.
Proof. revert s; induction n; intros [|c s]; simpl; auto. Qed.

Lemma prefix_length (a b : string) :
  String.prefix a b = true -> String.length a <= String.length b.
Proof.
  revert b; induction a as [|c a IH]; intros [|d b]; simpl;
    try lia; try (intros H; discriminate H).
  destruct (ascii_dec c d); [|intros H; discriminate H].
  intros H; apply IH in H; lia.
Qed.

Lemma contains_length (needle hay : string) :
  PyStr.contains needle hay = true -> String.length needle <= String.length hay.
Proof.
  induction hay as [|c hay IH]; cbn [PyStr.contains]; rewrite orb_true_iff.
  - intros [H|H]; [apply prefix_length in H; exact H|discriminate].
  - intros [H|H]; [apply prefix_length in H; exact H|].
    apply IH in H; cbn [String.length]; lia.
Qed.

Lemma masked_key_length (k : string) : String.length (masked_key k) <= 11.
Proof.
  unfold masked_key, PyStr.take_last.
  destruct (8 <? String.length k)%nat; [|simpl; lia].
  rewrite !length_append, length_drop.
  pose proof (length_take 4 k).
  change (String.length "...") with 3; lia.
Qed.

(** C10, as the claim states it, fails: the summary prints the trading pair
    and the masked key, so a secret that equals the pair is in the output in
    full, and so is a nine-character key whose last five characters are
    dots. *)
Lemma summary_can_contain_credentials :
  PyStr.contains (api_secret secret_equals_pair)
    (stdout_of (print_config_summary secret_equals_pair)) = true /\
  (8 <? String.length (api_key secret_equals_pair))%nat = true /\
  PyStr.contains (api_key secret_equals_pair)
    (stdout_of (print_config_summary secret_equals_pair)) = true.
Proof. repeat split; vm_compute; reflexivity. Qed.

(** C10 (amended): the summary is computed without reading [api_secret]
    (two configurations that differ only in it print the same); it depends
    on the key only through its masked form, which is the first four
    characters, [...] and the last four when the key is longer than eight,
    and [****] otherwise; the masked form has at most eleven characters, so
    it never contains a key longer than that. *)
Theorem summary_masks_credentials (config : TradingConfig) :
  (forall s, print_config_summary (with_secret s config) = print_config_summary config) /\
  (forall k, masked_key k = masked_key (api_key config) ->
             print_config_summary (with_key k config) = print_config_summary config) /\
  nth_error (print_config_summary config) 3
    = Some ("API Key:        " ++
            (if (8 <? String.length (api_key config))%nat
             then PyStr.take 4 (api_key config) ++ "..." ++
                  PyStr.take_last 4 (api_key config)
             else "****")) /\
  (forall k, 11 < String.length k -> PyStr.contains k (masked_key k) = false).
Proof.
  split; [reflexivity|split; [|split; [reflexivity|]]].
  - intros k E; unfold print_config_summary; simpl; rewrite E; reflexivity.
  - intros k L.
    destruct (PyStr.contains k (masked_key k)) eqn:C; [|reflexivity].
    apply contains_length in C.
    pose proof (masked_key_length k); lia.
Qed.

(** The amended C10 at a key of 31 characters *)
Lemma summary_masks_credentials_witness :
  print_config_summary (with_secret "another" live_shouting)
    = print_config_summary live_shouting /\
  print_config_summary (with_key "orgaXXXXXXXXXXX0001" live_shouting)
    = print_config_summary live_shouting /\
  PyStr.contains (api_key live_shouting) (masked_key (api_key live_shouting)) = false.
Proof.
  pose proof (summary_masks_credentials live_shouting) as [S [K [_ C]]].
  split; [apply S|split; [apply K; reflexivity|apply C; simpl; lia]].
Defined.

(** ** Float comparisons *)

Lemma gt_zero_not_le (a : float) : (0 <? a)%float = true -> (a <=? 0)%float = false.
Proof.
  rewrite ltb_spec, leb_spec.
  change (Prim2SF 0) with (S754_zero false).
  destruct (Prim2SF a) as [s|s| |s m e]; try destruct s; cbv; congruence.
Qed.

(** ** The world across the bot's methods *)

Ltac refold_world :=
  repeat match goal with
  | w : World |- _ =>
      progress (fold (calls w); fold (log w); fold (uuids_drawn w); fold (clock_reads w))
  end.

Ltac run :=
  cbv [bind ret tbind tret lift eval raise try_except logger record_call
       calls log uuids_drawn clock_reads];
  refold_world;
  cbn [fst snd calls log uuids_drawn clock_reads].

Ltac frame :=
  unfold extends_by; cbn [fst snd calls log uuids_drawn clock_reads];
  rewrite ?app_nil_r; auto.

Lemma extends_by_refl (w : World) : extends_by [] w w.
Proof. frame. Qed.

Lemma extends_by_trans (cs cs' : list Call) (w w1 w2 : World) :
  extends_by cs w w1 -> extends_by cs' w1 w2 -> extends_by (cs ++ cs') w w2.
Proof.
  unfold extends_by; intros [C [U K]] [C' [U' K']].
  rewrite C', C, U', U, K', K, app_assoc; auto.
Qed.

Lemma logger_extends (l : Level) (m : string) (w : World) :
  extends_by [] w (snd (logger l m w)).
Proof. unfold logger; frame. Qed.

Lemma log_accounts_extends (l : list Account) (w : World) :
  extends_by [] w (snd (log_accounts l w)).
Proof.
  revert w; induction l as [|a l IH]; intros w; cbn [log_accounts]; run.
  - frame.
  - eapply (extends_by_trans [] [] w); [|apply IH]; frame.
Qed.

Lemma find_balance_extends (cur : string) (l : list Account) (w : World) :
  extends_by [] w (snd (find_balance cur l w)).
Proof.
  induction l as [|a l IH]; cbn [find_balance]; run; [frame|].
  destruct (String.eqb (currency a) cur); [|exact IH].
  destruct (as_float (available_balance_value a)); frame.
Qed.

Lemma find_balance_result (cur : string) (l : list Account) (w w' : World) :
  fst (find_balance cur l w') = fst (find_balance cur l w).
Proof.
  induction l as [|a l IH]; cbn [find_balance]; run; [reflexivity|].
  destruct (String.eqb (currency a) cur); [|exact IH].
  destruct (as_float (available_balance_value a)); reflexivity.
Qed.

Lemma log_book_summary_extends (bids asks : list PriceLevel) (w : World) :
  extends_by [] w (snd (log_book_summary bids asks w)).
Proof.
  unfold log_book_summary; run.
  destruct bids as [|b bids], asks as [|a asks]; run; try solve [frame].
  destruct (float_div _ _); frame.
Qed.

Lemma log_book_summary_result (bids asks : list PriceLevel) (w w' : World) :
  fst (log_book_summary bids asks w') = fst (log_book_summary bids asks w).
Proof.
  unfold log_book_summary; run.
  destruct bids as [|b bids], asks as [|a asks]; run; try reflexivity.
  destruct (float_div _ _); reflexivity.
Qed.

Lemma validate_credentials_extends (env : Env) (w : World) :
  extends_by [GetAccounts] w (snd (validate_credentials env w)).
Proof.
  unfold validate_credentials, client_get_accounts; run.
  destruct (get_accounts env _) as [[ |e|[l|]]|e]; run; try solve [frame].
  pose proof (log_accounts_extends (firstn 5 l)) as H.
  match goal with |- context [log_accounts _ ?w0] =>
    specialize (H w0); destruct (log_accounts (firstn 5 l) w0) as [u w1] end.
  revert H; frame.
Qed.

Lemma validate_credentials_result (env : Env) (w w' : World) :
  calls w' = calls w ->
  fst (validate_credentials env w') = fst (validate_credentials env w).
Proof.
  intros E; unfold validate_credentials, client_get_accounts; run; rewrite E.
  destruct (get_accounts env _) as [[ |e|[l|]]|e]; run; try reflexivity.
  repeat match goal with |- context [log_accounts ?l ?w0] =>
    destruct (log_accounts l w0) end.
  reflexivity.
Qed.

Lemma get_current_price_extends (env : Env) (config : TradingConfig) (w : World) :
  extends_by [GetProduct (trading_pair config)] w (snd (get_current_price env config w)).
Proof.
  unfold get_current_price, client_get_product; run.
  destruct (get_product env _ _) as [[p|]|e]; run; try solve [frame].
  destruct (as_float (product_price p)); frame.
Qed.

Lemma get_current_price_result (env : Env) (config : TradingConfig) (w w' : World) :
  calls w' = calls w ->
  fst (get_current_price env config w') = fst (get_current_price env config w).
Proof.
  intros E; unfold get_current_price, client_get_product; run; rewrite E.
  destruct (get_product env _ _) as [[p|]|e]; run; try reflexivity.
  destruct (as_float (product_price p)); reflexivity.
Qed.

Lemma get_order_book_extends (env : Env) (config : TradingConfig) (limit : Z) (w : World) :
  extends_by [GetProductBook (trading_pair config) limit] w
    (snd (get_order_book env config limit w)).
Proof.
  unfold get_order_book, client_get_product_book; run.
  destruct (get_product_book env _ _ _) as [[pb|]|e]; run; try solve [frame].
  destruct (parse_side limit (pricebook_bids pb)) as [bids|e]; try solve [frame].
  destruct (parse_side limit (pricebook_asks pb)) as [asks|e]; try solve [frame].
  pose proof (log_book_summary_extends bids asks) as H.
  match goal with |- context [log_book_summary _ _ ?w0] =>
    specialize (H w0); destruct (log_book_summary bids asks w0) as [[u|e] w1] end;
    revert H; frame.
Qed.

Lemma get_order_book_result (env : Env) (config : TradingConfig) (limit : Z)
    (w w' : World) :
  calls w' = calls w ->
  fst (get_order_book env config limit w') = fst (get_order_book env config limit w).
Proof.
  intros E; unfold get_order_book, client_get_product_book; run; rewrite E.
  destruct (get_product_book env _ _ _) as [[pb|]|e]; run; try reflexivity.
  destruct (parse_side limit (pricebook_bids pb)) as [bids|e]; try reflexivity.
  destruct (parse_side limit (pricebook_asks pb)) as [asks|e]; try reflexivity.
  repeat match goal with |- context [log_book_summary bids asks ?w0] =>
    let H := fresh "H" in
    let R := fresh "R" in
    pose proof (log_book_summary_result bids asks w w0) as H;
    destruct (log_book_summary bids asks w0) as [[?|?] ?] eqn:R;
    cbn [fst] in H
  end; cbn [fst]; congruence.
Qed.

Lemma get_account_balance_extends (env : Env) (cur : string) (w : World) :
  extends_by [GetAccounts] w (snd (get_account_balance env cur w)).
Proof.
  unfold get_account_balance, client_get_accounts; run.
  destruct (get_accounts env _) as [[ |e|[l|]]|e]; run; try solve [frame].
  pose proof (find_balance_extends cur l) as H.
  match goal with |- context [find_balance _ _ ?w0] =>
    specialize (H w0); destruct (find_balance cur l w0) as [[[b|]|e] w1] end;
    revert H; frame.
Qed.

Lemma get_account_balance_result (env : Env) (cur : string) (w w' : World) :
  calls w' = calls w ->
  fst (get_account_balance env cur w') = fst (get_account_balance env cur w).
Proof.
  intros E; unfold get_account_balance, client_get_accounts; run; rewrite E.
  destruct (get_accounts env _) as [[ |e|[l|]]|e]; run; try reflexivity.
  repeat match goal with |- context [find_balance cur l ?w0] =>
    let H := fresh "H" in
    let R := fresh "R" in
    pose proof (find_balance_result cur l w w0) as H;
    destruct (find_balance cur l w0) as [[[?|]|?] ?] eqn:R;
    cbn [fst] in H
  end; cbn [fst]; congruence.
Qed.

(** ** The guards of place_market_buy *)

Lemma place_market_buy_dispatch (env : Env) (config : TradingConfig) (a : float)
    (w : World) :
  passes_guards config a = true ->
  place_market_buy env config a w
    = dispatch env config a (snd (logger INFO (snd (preparing a)) w)).
Proof.
  unfold passes_guards; rewrite !andb_true_iff, !negb_true_iff; intros [[G1 G2] G3].
  unfold place_market_buy, dispatch, preparing, bind; cbn [snd].
  destruct (logger _ _ w) as [u w0]; cbn [snd].
  rewrite G1, G2, G3; reflexivity.
Qed.

(** C3: the guards are checked in order and the first one violated ends the
    call.  An amount [<= 0] is rejected with "Order amount must be
    positive", whatever the limit is; an amount [> 0] above [max_order_usd]
    is rejected with the limit message, whether or not it is below the
    minimum.  Either way the result is [None], and besides the log records
    the world is as before: no client call, no UUID, no clock reading. *)
Theorem guards_fail_fast (env : Env) (config : TradingConfig) (a : float) (w : World) :
  ((a <=? 0)%float = true ->
   fst (place_market_buy env config a w) = None /\
   extends_by [] w (snd (place_market_buy env config a w)) /\
   log (snd (place_market_buy env config a w))
     = (log w ++ [preparing a; (ERROR, "Order amount must be positive")])%list) /\
  ((0 <? a)%float = true -> (max_order_usd config <? a)%float = true ->
   fst (place_market_buy env config a w) = None /\
   extends_by [] w (snd (place_market_buy env config a w)) /\
   log (snd (place_market_buy env config a w))
     = (log w ++
        [preparing a;
         (ERROR, ("Order amount $" ++ PyFloat.format_f 2 a ++ " exceeds maximum " ++
                  "allowed $" ++ PyFloat.format_f 2 (max_order_usd config))%string);
         (ERROR, "Increase MAX_ORDER_USD in .env if this was intentional")])%list).
Proof.
  split.
  - intros G1; unfold place_market_buy; run; rewrite G1; run.
    repeat split; [frame|rewrite <- app_assoc; reflexivity].
  - intros P G2; apply gt_zero_not_le in P.
    unfold place_market_buy; run; rewrite P, G2; run.
    repeat split; [frame|rewrite <- !app_assoc; reflexivity].
Qed.

(** C3 at the amounts [-1] and [100] under a limit of [50] *)
Lemma guards_fail_fast_witness :
  (fst (place_market_buy (exchange accounts_down (btc_at 50000)) live_config (-1) empty_world)
     = None /\
   calls (snd (place_market_buy (exchange accounts_down (btc_at 50000)) live_config (-1)
                 empty_world)) = []) /\
  (fst (place_market_buy (exchange accounts_down (btc_at 50000)) live_config 100 empty_world)
     = None /\
   log (snd (place_market_buy (exchange accounts_down (btc_at 50000)) live_config 100
               empty_world))
     = [ (INFO, "Preparing market buy order: $100.00");
         (ERROR, "Order amount $100.00 exceeds maximum allowed $50.00");
         (ERROR, "Increase MAX_ORDER_USD in .env if this was intentional") ]).
Proof.
  split.
  - destruct (guards_fail_fast (exchange accounts_down (btc_at 50000)) live_config (-1)
                empty_world) as [H _].
    destruct (H eq_refl) as [R [[C _] _]]; split; [exact R|exact C].
  - destruct (guards_fail_fast (exchange accounts_down (btc_at 50000)) live_config 100
                empty_world) as [_ H].
    destruct (H eq_refl eq_refl) as [R [_ L]]; split; [exact R|exact L].
Defined.

(** C6, as the claim states it, fails: the limit is checked before the
    minimum, so under a limit of [0.50] the amount [0.75], which lies
    between [0] and [1.00], is rejected for exceeding the limit and the
    minimum is never mentioned. *)
Lemma minimum_hidden_by_limit :
  (0 <? 0.75)%float = true /\ (0.75 <? 1)%float = true /\
  log (snd (place_market_buy (exchange accounts_down (btc_at 50000)) tight_config 0.75
              empty_world))
    = [ (INFO, "Preparing market buy order: $0.75");
        (ERROR, "Order amount $0.75 exceeds maximum allowed $0.50");
        (ERROR, "Increase MAX_ORDER_USD in .env if this was intentional") ].
Proof. repeat split; vm_compute; reflexivity. Qed.

(** C6 (amended): an amount with [0 < amount < 1.00] that does not exceed
    [max_order_usd] is rejected with "Order amount must be at least $1.00":
    the result is [None] and nothing but the two log records happens.  The
    amount [1.00] is not below the minimum: unless the limit is below it,
    the call goes on to the simulation or the execution. *)
Theorem below_exchange_minimum (env : Env) (config : TradingConfig) (a : float)
    (w : World) :
  ((0 <? a)%float = true -> (max_order_usd config <? a)%float = false ->
   (a <? 1)%float = true ->
   fst (place_market_buy env config a w) = None /\
   extends_by [] w (snd (place_market_buy env config a w)) /\
   log (snd (place_market_buy env config a w))
     = (log w ++ [preparing a; (ERROR, "Order amount must be at least $1.00")])%list) /\
  ((max_order_usd config <? 1)%float = false ->
   place_market_buy env config 1 w
     = dispatch env config 1 (snd (logger INFO "Preparing market buy order: $1.00" w))).
Proof.
  split.
  - intros P G2 G3; apply gt_zero_not_le in P.
    unfold place_market_buy; run; rewrite P, G2, G3; run.
    repeat split; [frame|rewrite <- !app_assoc; reflexivity].
  - intros G2; apply place_market_buy_dispatch.
    unfold passes_guards; rewrite G2; reflexivity.
Qed.

(** The amended C6 at the amounts [0.5] and [1.0] under a limit of [50] *)
Lemma below_exchange_minimum_witness :
  log (snd (place_market_buy (exchange accounts_down (btc_at 50000)) dry_config 0.5
              empty_world))
    = [ (INFO, "Preparing market buy order: $0.50");
        (ERROR, "Order amount must be at least $1.00") ] /\
  place_market_buy (exchange accounts_down (btc_at 50000)) dry_config 1 empty_world
    = dispatch (exchange accounts_down (btc_at 50000)) dry_config 1
        (snd (logger INFO "Preparing market buy order: $1.00" empty_world)).
Proof.
  destruct (below_exchange_minimum (exchange accounts_down (btc_at 50000)) dry_config 0.5
              empty_world) as [H _].
  destruct (below_exchange_minimum (exchange accounts_down (btc_at 50000)) dry_config 1
              empty_world) as [_ H'].
  split; [destruct (H eq_refl eq_refl eq_refl) as [_ [_ L]]; exact L|exact (H' eq_refl)].
Defined.

(** ** Live orders *)

Lemma submit_market_buy_calls (env : Env) (config : TradingConfig) (a : float)
    (w : World) :
  calls (snd (submit_market_buy env config a w))
    = (calls w ++ [MarketOrderBuy (uuid_str (uuid4 env (uuids_drawn w)))
                     (trading_pair config) (PyFloat.repr a)])%list.
Proof.
  unfold submit_market_buy, uuid_uuid4, client_market_order_buy, datetime_now_isoformat;
    run.
  destruct (market_order_buy env _ _ _ _) as [[ack|]|e]; reflexivity.
Qed.

Lemma submit_market_buy_placed (env : Env) (config : TradingConfig) (a : float)
    (w : World) (ack : OrderAck) :
  market_order_buy env (List.length (calls w)) (uuid_str (uuid4 env (uuids_drawn w)))
    (trading_pair config) (PyFloat.repr a) = Returns (Some ack) ->
  option_map (dict_get "status") (fst (submit_market_buy env config a w))
    = Some (Some "PLACED").
Proof.
  intros R.
  unfold submit_market_buy, uuid_uuid4, client_market_order_buy, datetime_now_isoformat;
    run.
  rewrite R; reflexivity.
Qed.

(** [_execute_market_buy] up to the balance check: the world in which the
    balance has been read, and what was read *)
Lemma execute_market_buy_balance (env : Env) (config : TradingConfig) (a : float)
    (w : World) :
  exists w1,
    extends_by [GetAccounts] w w1 /\
    _execute_market_buy env config a w
      = match fst (get_account_balance env "USD" w) with
        | Some b =>
            if (b <? a)%float
            then (None,
                  snd (logger ERROR ("Insufficient USD balance: $" ++ PyFloat.format_f 2 b ++
                                     " < $" ++ PyFloat.format_f 2 a) w1))
            else submit_market_buy env config a w1
        | None => submit_market_buy env config a w1
        end.
Proof.
  unfold _execute_market_buy; run.
  match goal with |- context [get_account_balance env "USD" ?w0] =>
    pose proof (get_account_balance_extends env "USD" w0) as X;
    pose proof (get_account_balance_result env "USD" w w0 eq_refl) as R;
    destruct (get_account_balance env "USD" w0) as [ob w1]
  end.
  cbn [fst snd] in X, R; rewrite <- R.
  exists w1; split; [revert X; frame|].
  destruct ob as [b|]; [destruct (b <? a)%float|]; reflexivity.
Qed.

Lemma live_dispatch (env : Env) (config : TradingConfig) (a : float) (w : World) :
  is_dry_run config = false ->
  passes_guards config a = true ->
  exists w0,
    extends_by [] w w0 /\
    place_market_buy env config a w = _execute_market_buy env config a w0.
Proof.
  intros D G; rewrite (place_market_buy_dispatch env config a w G).
  unfold dispatch; rewrite D.
  exists (snd (logger INFO (snd (preparing a)) w)); split; [apply logger_extends|reflexivity].
Qed.

(** C2: in live mode, for an amount that passes the three guards, if the
    USD balance can be read and is below the amount, the order is rejected:
    the result is [None], the last log record is the "Insufficient USD
    balance" error, the only client call made is the balance read, and no
    order is submitted. *)
Theorem insufficient_balance_rejected (env : Env) (config : TradingConfig)
    (a b : float) (w : World) :
  is_dry_run config = false ->
  passes_guards config a = true ->
  fst (get_account_balance env "USD" w) = Some b ->
  (b <? a)%float = true ->
  fst (place_market_buy env config a w) = None /\
  extends_by [GetAccounts] w (snd (place_market_buy env config a w)) /\
  existsb is_submission (calls (snd (place_market_buy env config a w)))
    = existsb is_submission (calls w) /\
  last (log (snd (place_market_buy env config a w))) (preparing a)
    = (ERROR, "Insufficient USD balance: $" ++ PyFloat.format_f 2 b ++
              " < $" ++ PyFloat.format_f 2 a).
Proof.
  intros D G B L.
  destruct (live_dispatch env config a w D G) as [w0 [[C0 [U0 K0]] ->]].
  destruct (execute_market_buy_balance env config a w0) as [w1 [[C1 [U1 K1]] ->]].
  rewrite (get_account_balance_result env "USD" w w0), B, L
    by (rewrite C0; apply app_nil_r).
  unfold logger; cbn [fst snd calls log].
  rewrite app_nil_r in C0.
  split; [reflexivity|split; [|split]].
  - unfold extends_by; cbn [calls uuids_drawn clock_reads]; rewrite C1, C0; repeat split; congruence.
  - rewrite C1, C0, existsb_app; cbn [existsb is_submission]; rewrite !orb_false_r; reflexivity.
  - apply last_last.
Qed.

(** C2 with a balance of $5 and a request of $10 *)
Lemma insufficient_balance_rejected_witness :
  fst (place_market_buy (exchange (holding 5) (btc_at 50000)) live_config 10 empty_world)
    = None /\
  calls (snd (place_market_buy (exchange (holding 5) (btc_at 50000)) live_config 10
                empty_world)) = [GetAccounts] /\
  last (log (snd (place_market_buy (exchange (holding 5) (btc_at 50000)) live_config 10
                    empty_world))) (preparing 10)
    = (ERROR, "Insufficient USD balance: $5.00 < $10.00").
Proof.
  destruct (insufficient_balance_rejected (exchange (holding 5) (btc_at 50000))
              live_config 10 5 empty_world eq_refl eq_refl eq_refl eq_refl)
    as [R [[C _] [_ L]]].
  split; [exact R|split; [exact C|exact L]].
Defined.

(** C1, as the claim states it, fails: with the exchange unreachable for
    the balance read, in live mode, a request of $10 under a limit of $50
    still reaches the submission endpoint, and the order is placed. *)
Lemma order_submitted_without_balance :
  is_dry_run live_config = false /\
  passes_guards live_config 10 = true /\
  fst (get_account_balance (exchange accounts_down (btc_at 50000)) "USD" empty_world)
    = None /\
  calls (snd (place_market_buy (exchange accounts_down (btc_at 50000)) live_config 10
                empty_world))
    = [ GetAccounts;
        MarketOrderBuy "3f2b8c1e-9d4a-4f6a-b0c2-7e5d1a9f4c30" "BTC-USD" "10.0" ] /\
  option_map (dict_get "status")
    (fst (place_market_buy (exchange accounts_down (btc_at 50000)) live_config 10
            empty_world))
    = Some (Some "PLACED").
Proof. repeat split; vm_compute; reflexivity. Qed.

(** C1 (amended): in live mode, for an amount that passes the three guards,
    a balance read that gives [None] does not stop the order: after the
    balance read, [market_order_buy] is called with a fresh client order id,
    the trading pair and [str(usd_amount)]; when the exchange acknowledges
    it, the result is an order with status [PLACED]. *)
Theorem unread_balance_does_not_block (env : Env) (config : TradingConfig)
    (a : float) (w : World) :
  is_dry_run config = false ->
  passes_guards config a = true ->
  fst (get_account_balance env "USD" w) = None ->
  calls (snd (place_market_buy env config a w))
    = (calls w ++
       [ GetAccounts;
         MarketOrderBuy (uuid_str (uuid4 env (uuids_drawn w))) (trading_pair config)
           (PyFloat.repr a) ])%list /\
  (forall ack,
     market_order_buy env (S (List.length (calls w)))
       (uuid_str (uuid4 env (uuids_drawn w))) (trading_pair config) (PyFloat.repr a)
       = Returns (Some ack) ->
     option_map (dict_get "status") (fst (place_market_buy env config a w))
       = Some (Some "PLACED")).
Proof.
  intros D G B.
  destruct (live_dispatch env config a w D G) as [w0 [[C0 [U0 K0]] ->]].
  destruct (execute_market_buy_balance env config a w0) as [w1 [[C1 [U1 K1]] ->]].
  rewrite app_nil_r in C0.
  rewrite (get_account_balance_result env "USD" w w0 C0), B.
  split.
  - rewrite submit_market_buy_calls, C1, C0, U1, U0, <- app_assoc; reflexivity.
  - intros ack R; apply (submit_market_buy_placed env config a w1 ack).
    rewrite C1, C0, U1, U0, length_app, Nat.add_1_r; exact R.
Qed.

(** The amended C1 with the exchange unreachable for the balance read *)
Lemma unread_balance_does_not_block_witness :
  calls (snd (place_market_buy (exchange accounts_down (btc_at 50000)) live_config 10
                empty_world))
    = [ GetAccounts;
        MarketOrderBuy "3f2b8c1e-9d4a-4f6a-b0c2-7e5d1a9f4c30" "BTC-USD" "10.0" ] /\
  option_map (dict_get "status")
    (fst (place_market_buy (exchange accounts_down (btc_at 50000)) live_config 10
            empty_world))
    = Some (Some "PLACED").
Proof.
  destruct (unread_balance_does_not_block (exchange accounts_down (btc_at 50000))
              live_config 10 empty_world eq_refl eq_refl eq_refl) as [C P].
  split; [exact C|exact (P _ eq_refl)].
Defined.

(** ** Dry runs *)

Lemma gt_zero_truthy (p : float) : (0 <? p)%float = true -> float_truthy p = true.
Proof.
  unfold float_truthy; rewrite ltb_spec, eqb_spec.
  change (Prim2SF 0) with (S754_zero false).
  destruct (Prim2SF p) as [s|s| |s m e]; try destruct s; cbv; congruence.
Qed.

Lemma simulation_price_positive (fetched : option float) :
  (0 <? simulation_price fetched)%float
    = match fetched with
      | Some p => (0 <? p)%float
      | None => false
      end.
Proof.
  destruct fetched as [p|]; [|reflexivity].
  unfold simulation_price.
  destruct (float_truthy p) eqn:T; [reflexivity|].
  destruct (0 <? p)%float eqn:P; [|reflexivity].
  apply gt_zero_truthy in P; congruence.
Qed.

Lemma simulate_market_buy_spec (env : Env) (config : TradingConfig) (a : float)
    (w : World) :
  fst (_simulate_market_buy env config a w)
    = [ ("order_id",
         "DRY-RUN-" ++ PyStr.upper (PyStr.take 8 (uuid_hex (uuid4 env (uuids_drawn w)))));
        ("product_id", trading_pair config);
        ("side", "BUY");
        ("type", "MARKET");
        ("status", "SIMULATED");
        ("quote_size", PyFloat.format_f 2 a);
        ("estimated_fill_price",
         PyFloat.format_f 2 (simulation_price (fst (get_current_price env config w))));
        ("estimated_quantity",
         PyFloat.format_f 8
           (if (0 <? simulation_price (fst (get_current_price env config w)))%float
            then a / simulation_price (fst (get_current_price env config w))
            else 0)%float);
        ("timestamp", now_isoformat env (clock_reads w)) ] /\
  calls (snd (_simulate_market_buy env config a w))
    = (calls w ++ [GetProduct (trading_pair config)])%list /\
  uuids_drawn (snd (_simulate_market_buy env config a w)) = S (uuids_drawn w) /\
  clock_reads (snd (_simulate_market_buy env config a w)) = S (clock_reads w).
Proof.
  unfold _simulate_market_buy; run.
  match goal with |- context [get_current_price env config ?w0] =>
    pose proof (get_current_price_extends env config w0) as X;
    pose proof (get_current_price_result env config w w0 eq_refl) as R;
    destruct (get_current_price env config w0) as [fetched w1]
  end.
  cbn [fst snd] in X, R; rewrite <- R.
  destruct X as [C [U K]]; cbn [calls uuids_drawn clock_reads] in C, U, K.
  unfold uuid_uuid4, datetime_now_isoformat; run.
  rewrite C, U, K; repeat split.
Qed.

Lemma dry_dispatch (env : Env) (config : TradingConfig) (a : float) (w : World) :
  is_dry_run config = true ->
  passes_guards config a = true ->
  exists w0,
    extends_by [] w w0 /\
    place_market_buy env config a w
      = (Some (fst (_simulate_market_buy env config a w0)),
         snd (_simulate_market_buy env config a w0)).
Proof.
  intros D G; rewrite (place_market_buy_dispatch env config a w G).
  unfold dispatch; rewrite D.
  exists (snd (logger INFO (snd (preparing a)) w)); split; [apply logger_extends|].
  unfold bind, ret.
  destruct (_simulate_market_buy env config a _); reflexivity.
Qed.

(** C5: in dry-run mode an amount that passes the guards always gives a
    result, an order with status [SIMULATED], after one price fetch and no
    other client call.  A fetch that fails counts as price 0: the fill price
    is then [0.00] and the quantity [0.00000000]; with a price [p > 0] the
    fill price is [p] and the quantity [amount / p], rendered with two and
    eight decimals; with any other price the quantity is 0.  In particular,
    at price 50000 and amount 10 the quantity is the float that prints as
    [0.0002], rendered [0.00020000], and the fill price is [50000.00]. *)
Theorem dry_run_simulates :
  (forall (env : Env) (config : TradingConfig) (a : float) (w : World),
     is_dry_run config = true ->
     passes_guards config a = true ->
     exists o,
       fst (place_market_buy env config a w) = Some o /\
       calls (snd (place_market_buy env config a w))
         = (calls w ++ [GetProduct (trading_pair config)])%list /\
       dict_get "status" o = Some "SIMULATED" /\
       match fst (get_current_price env config w) with
       | Some p =>
           if (0 <? p)%float then
             dict_get "estimated_fill_price" o = Some (PyFloat.format_f 2 p) /\
             dict_get "estimated_quantity" o = Some (PyFloat.format_f 8 (a / p)%float)
           else
             dict_get "estimated_fill_price" o
               = Some (PyFloat.format_f 2 (if (p =? 0)%float then 0%float else p)) /\
             dict_get "estimated_quantity" o = Some "0.00000000"
       | None =>
           dict_get "estimated_fill_price" o = Some "0.00" /\
           dict_get "estimated_quantity" o = Some "0.00000000"
       end) /\
  PyFloat.repr (10 / 50000) = "0.0002" /\
  option_map (dict_get "estimated_quantity")
    (fst (place_market_buy (exchange accounts_down (btc_at 50000)) dry_config 10
            empty_world)) = Some (Some "0.00020000") /\
  option_map (dict_get "estimated_fill_price")
    (fst (place_market_buy (exchange accounts_down (btc_at 50000)) dry_config 10
            empty_world)) = Some (Some "50000.00").
Proof.
  split; [|repeat split; vm_compute; reflexivity].
  intros env config a w D G.
  destruct (dry_dispatch env config a w D G) as [w0 [[C0 _] ->]].
  rewrite app_nil_r in C0.
  destruct (simulate_market_buy_spec env config a w0) as [O [C _]].
  rewrite (get_current_price_result env config w w0 C0) in O.
  eexists; split; [reflexivity|]; cbn [fst snd].
  split; [rewrite C, C0; reflexivity|].
  rewrite O; split; [reflexivity|].
  cbn [dict_get String.eqb Ascii.eqb Bool.eqb].
  rewrite simulation_price_positive.
  destruct (fst (get_current_price env config w)) as [p|]; [|split; reflexivity].
  destruct (0 <? p)%float eqn:P.
  - unfold simulation_price; rewrite (gt_zero_truthy p P); split; reflexivity.
  - unfold simulation_price, float_truthy.
    destruct (p =? 0)%float; split; reflexivity.
Qed.

(** C5 with the price fetch failing: the order is simulated at price 0 *)
Lemma dry_run_simulates_witness :
  exists o,
    fst (place_market_buy (exchange accounts_down (Raises "timed out")) dry_config 10
           empty_world) = Some o /\
    calls (snd (place_market_buy (exchange accounts_down (Raises "timed out")) dry_config 10
                  empty_world)) = [GetProduct "BTC-USD"] /\
    dict_get "status" o = Some "SIMULATED" /\
    dict_get "estimated_fill_price" o = Some "0.00" /\
    dict_get "estimated_quantity" o = Some "0.00000000".
Proof.
  destruct dry_run_simulates as [H _].
  destruct (H (exchange accounts_down (Raises "timed out")) dry_config 10%float empty_world
              eq_refl eq_refl) as [o [R [C [S [F Q]]]]].
  exists o; repeat split; assumption.
Defined.

(** C7: a mode whose lower-cased form is not [live] is a dry run, and
    [place_market_buy] then makes at most one client call, the price fetch
    of the simulation: no order is submitted, whatever the amount. *)
Theorem unknown_mode_never_submits (env : Env) (config : TradingConfig) (a : float)
    (w : World) :
  String.eqb (PyStr.lower (trading_mode config)) "live" = false ->
  is_dry_run config = true /\
  exists cs,
    calls (snd (place_market_buy env config a w)) = (calls w ++ cs)%list /\
    (cs = [] \/ cs = [GetProduct (trading_pair config)]) /\
    existsb is_submission cs = false.
Proof.
  intros H.
  assert (D : is_dry_run config = true) by (unfold is_dry_run; rewrite H; reflexivity).
  split; [exact D|].
  destruct (passes_guards config a) eqn:G.
  - destruct (dry_dispatch env config a w D G) as [w0 [[C0 _] ->]].
    destruct (simulate_market_buy_spec env config a w0) as [_ [C _]].
    exists [GetProduct (trading_pair config)]; cbn [snd].
    rewrite C, C0, app_nil_r; auto.
  - exists []; rewrite app_nil_r; split; [|auto].
    revert G; unfold passes_guards, place_market_buy; run.
    destruct (a <=? 0)%float; [reflexivity|].
    destruct (max_order_usd config <? a)%float; [reflexivity|].
    destruct (a <? 1)%float; [reflexivity|discriminate].
Qed.

(** C7 at the modes [LIVE_TRADING] and [prod] *)
Lemma unknown_mode_never_submits_witness :
  (is_dry_run (with_mode "LIVE_TRADING" live_config) = true /\
   existsb is_submission
     (calls (snd (place_market_buy (exchange (holding 100) (btc_at 50000))
                    (with_mode "LIVE_TRADING" live_config) 10 empty_world))) = false) /\
  (is_dry_run (with_mode "prod" live_config) = true /\
   existsb is_submission
     (calls (snd (place_market_buy (exchange (holding 100) (btc_at 50000))
                    (with_mode "prod" live_config) 10 empty_world))) = false).
Proof.
  split.
  - destruct (unknown_mode_never_submits (exchange (holding 100) (btc_at 50000))
                (with_mode "LIVE_TRADING" live_config) 10 empty_world eq_refl)
      as [D [cs [C [_ S]]]].
    split; [exact D|rewrite C; exact S].
  - destruct (unknown_mode_never_submits (exchange (holding 100) (btc_at 50000))
                (with_mode "prod" live_config) 10 empty_world eq_refl)
      as [D [cs [C [_ S]]]].
    split; [exact D|rewrite C; exact S].
Defined.

(** *** Order ids of simulations *)

Lemma hex_char_in (d : N) : existsb (Ascii.eqb (hex_char d)) hex_chars = true.
Proof.
  destruct d as [|p]; [reflexivity|].
  do 4 (try destruct p as [p|p|]); reflexivity.
Qed.

Lemma hex_digits_all_hex (n : nat) (v : N) : all_hex (hex_digits n v) = true.
Proof.
  induction n as [|n IH]; [reflexivity|].
  cbn [hex_digits all_hex]; rewrite hex_char_in, IH; reflexivity.
Qed.

Lemma take_all_hex (n : nat) (s : string) :
  all_hex s = true -> all_hex (PyStr.take n s) = true.
Proof.
  revert s; induction n as [|n IH]; intros [|c s]; try reflexivity.
  cbn [PyStr.take all_hex]; rewrite !andb_true_iff; intros [C S]; auto.
Qed.

Lemma hex_chars_in (c : ascii) :
  existsb (Ascii.eqb c) hex_chars = true -> In c hex_chars.
Proof.
  intros H; apply existsb_exists in H; destruct H as [x [I E]].
  apply Ascii.eqb_eq in E; subst x; exact I.
Qed.

Lemma upper_char_hex_inj (c d : ascii) :
  existsb (Ascii.eqb c) hex_chars = true ->
  existsb (Ascii.eqb d) hex_chars = true ->
  PyStr.upper_char c = PyStr.upper_char d -> c = d.
Proof.
  intros C D; apply hex_chars_in in C, D; unfold hex_chars in C, D; simpl in C, D.
  repeat (destruct C as [<-|C]; [|]); try contradiction;
    repeat (destruct D as [<-|D]; [|]); try contradiction;
    vm_compute; intros E; try discriminate E; reflexivity.
Qed.

Lemma upper_hex_inj (s t : string) :
  all_hex s = true -> all_hex t = true -> PyStr.upper s = PyStr.upper t -> s = t.
Proof.
  revert t; induction s as [|c s IH]; intros [|d t]; try reflexivity;
    try (intros _ _ E; discriminate E).
  cbn [all_hex]; rewrite !andb_true_iff; intros [C S] [D T] E.
  injection E as E1 E2.
  rewrite (upper_char_hex_inj c d C D E1), (IH t S T E2); reflexivity.
Qed.

Lemma some_inj {A} (x y : A) : Some x = Some y -> x = y.
Proof. intros E; injection E; auto. Qed.

Lemma append_inj_r (a x y : string) : a ++ x = a ++ y -> x = y.
Proof. induction a as [|c a IH]; simpl; [auto|intros E; injection E; auto]. Qed.

(** C8, as the claim states it, fails: the order id keeps the first eight
    hex digits of the UUID, so two simulations that draw different UUIDs
    with the same first eight digits return the same order id. *)
Lemma simulated_order_ids_collide :
  N.eqb (uuid4 (exchange accounts_down (btc_at 50000)) 0)
        (uuid4 (exchange accounts_down (btc_at 50000)) 1) = false /\
  dict_get "order_id"
    (fst (_simulate_market_buy (exchange accounts_down (btc_at 50000)) dry_config 10
            empty_world)) = Some "DRY-RUN-3F2B8C1E" /\
  dict_get "order_id"
    (fst (_simulate_market_buy (exchange accounts_down (btc_at 50000)) dry_config 10
            (snd (_simulate_market_buy (exchange accounts_down (btc_at 50000)) dry_config
                    10 empty_world)))) = Some "DRY-RUN-3F2B8C1E".
Proof. repeat split; vm_compute; reflexivity. Qed.

(** C8 (amended): two simulations with the same amount and configuration
    that fetch the same price return the same [estimated_quantity] and the
    same [estimated_fill_price].  Each draws one UUID, and its order id is
    [DRY-RUN-] followed by the first eight hex digits of that UUID in upper
    case: the two order ids differ exactly when the two UUIDs differ in
    their first eight hex digits. *)
Theorem simulations_agree_up_to_order_id (env1 env2 : Env) (config : TradingConfig)
    (a : float) (w1 w2 : World) :
  fst (get_current_price env1 config w1) = fst (get_current_price env2 config w2) ->
  dict_get "estimated_quantity" (fst (_simulate_market_buy env1 config a w1))
    = dict_get "estimated_quantity" (fst (_simulate_market_buy env2 config a w2)) /\
  dict_get "estimated_fill_price" (fst (_simulate_market_buy env1 config a w1))
    = dict_get "estimated_fill_price" (fst (_simulate_market_buy env2 config a w2)) /\
  uuids_drawn (snd (_simulate_market_buy env1 config a w1)) = S (uuids_drawn w1) /\
  dict_get "order_id" (fst (_simulate_market_buy env1 config a w1))
    = Some ("DRY-RUN-" ++
            PyStr.upper (PyStr.take 8 (uuid_hex (uuid4 env1 (uuids_drawn w1))))) /\
  (dict_get "order_id" (fst (_simulate_market_buy env1 config a w1))
     = dict_get "order_id" (fst (_simulate_market_buy env2 config a w2))
   <-> PyStr.take 8 (uuid_hex (uuid4 env1 (uuids_drawn w1)))
       = PyStr.take 8 (uuid_hex (uuid4 env2 (uuids_drawn w2)))).
Proof.
  intros P.
  destruct (simulate_market_buy_spec env1 config a w1) as [O1 [_ [U1 _]]].
  destruct (simulate_market_buy_spec env2 config a w2) as [O2 _].
  rewrite O1, O2, P; cbn [dict_get String.eqb Ascii.eqb Bool.eqb].
  split; [reflexivity|split; [reflexivity|split; [exact U1|split; [reflexivity|]]]].
  split.
  - intros E; apply some_inj, append_inj_r in E.
    apply upper_hex_inj in E; [exact E| |];
      apply take_all_hex, hex_digits_all_hex.
  - intros ->; reflexivity.
Qed.

(** The amended C8 at two simulations in a row that fetch the same price
    and draw UUIDs with the same first eight hex digits *)
Lemma simulations_agree_up_to_order_id_witness :
  dict_get "estimated_quantity"
    (fst (_simulate_market_buy (exchange accounts_down (btc_at 50000)) dry_config 10
            empty_world))
    = dict_get "estimated_quantity"
        (fst (_simulate_market_buy (exchange accounts_down (btc_at 50000)) dry_config 10
                (snd (_simulate_market_buy (exchange accounts_down (btc_at 50000))
                        dry_config 10 empty_world)))) /\
  dict_get "order_id"
    (fst (_simulate_market_buy (exchange accounts_down (btc_at 50000)) dry_config 10
            empty_world))
    = Some "DRY-RUN-3F2B8C1E".
Proof.
  destruct (simulations_agree_up_to_order_id
              (exchange accounts_down (btc_at 50000))
              (exchange accounts_down (btc_at 50000)) dry_config 10 empty_world
              (snd (_simulate_market_buy (exchange accounts_down (btc_at 50000))
                      dry_config 10 empty_world)) eq_refl) as [Q [_ [_ [I _]]]].
  split; [exact Q|exact I].
Defined.

(** ** Diagnostics *)

Ltac next_call f ext res wref :=
  match goal with |- context [f ?w0] =>
    let X := fresh "X" in
    let R := fresh "R" in
    pose proof (ext w0) as X; pose proof (res wref w0) as R;
    destruct (f w0) as [? ?];
    unfold extends_by in X;
    cbn [fst snd calls uuids_drawn clock_reads record_call] in X, R;
    destruct X as [? [? ?]]
  end.

(** C9: [run_diagnostics] makes the four client calls of its four checks,
    in order, whatever the earlier checks gave, and its result is the
    conjunction of the first three: the credentials are valid, a price was
    fetched, an order book was fetched, each as the exchange answers after
    the calls made before it.  The balance is not part of the result. *)
Theorem run_diagnostics_checks (env : Env) (config : TradingConfig) (w : World) :
  calls (snd (run_diagnostics env config w))
    = (calls w ++
       [ GetAccounts;
         GetProduct (trading_pair config);
         GetProductBook (trading_pair config) 5;
         GetAccounts ])%list /\
  fst (run_diagnostics env config w)
    = fst (validate_credentials env w) &&
      is_some (fst (get_current_price env config (record_call GetAccounts w))) &&
      is_some (fst (get_order_book env config 5
                      (record_call (GetProduct (trading_pair config))
                         (record_call GetAccounts w)))).
Proof.
  unfold run_diagnostics; run.
  next_call (validate_credentials env) (validate_credentials_extends env)
    (validate_credentials_result env) w.
  destruct b; cbn [negb]; run;
    next_call (get_current_price env config) (get_current_price_extends env config)
      (get_current_price_result env config) (record_call GetAccounts w);
    match goal with x : option _ |- _ => destruct x end; run;
    next_call (get_order_book env config 5) (get_order_book_extends env config 5)
      (get_order_book_result env config 5)
      (record_call (GetProduct (trading_pair config)) (record_call GetAccounts w));
    match goal with x : option _ |- _ => destruct x end; run;
    next_call (get_account_balance env "USD") (get_account_balance_extends env "USD")
      (get_account_balance_result env "USD") w;
    match goal with x : option _ |- _ => destruct x end; run;
    repeat match goal with R : ?P -> _ |- _ =>
      let H := fresh in assert (H : P) by congruence; specialize (R H); clear H
    end;
    (split;
     [ repeat match goal with H : calls _ = _ |- _ => rewrite H end;
       rewrite <- ?app_assoc; reflexivity
     | unfold record_call in *; cbn [calls log uuids_drawn clock_reads] in *;
       repeat match goal with R : _ = fst _ |- _ => rewrite <- R; clear R end;
       reflexivity ]).
Qed.

(** ** The gateway methods *)

Ltac exec :=
  unfold bind, tbind, try_except, lift;
  cbn [ret tret eval raise logger record_call fst snd
       calls log uuids_drawn clock_reads].



(** X2: when the response's [accounts] attribute is [None],
    [validate_credentials] first reports valid credentials with 0 accounts
    and then fails on slicing [None]: it returns [False]. *)
Theorem validate_credentials_none_accounts (env : Env) (w : World) :
  get_accounts env (List.length (calls w)) = Returns (AccountsObj None) ->
  fst (validate_credentials env w) = false /\
  log (snd (validate_credentials env w))
    = (log w ++
       [ (INFO, "Validating API credentials...");
         (INFO, "Credentials valid! Found 0 account(s)");
         (ERROR, "Credential validation failed: 'NoneType' object is not subscriptable");
         (ERROR, "Please check your API key and secret") ])%list.
Proof.
  intros R; unfold validate_credentials, client_get_accounts; exec; rewrite R; exec.
  split; [reflexivity|rewrite <- !app_assoc; reflexivity].
Qed.

Lemma validate_credentials_none_accounts_witness :
  fst (validate_credentials (exchange (Returns (AccountsObj None)) (btc_at 50000))
         empty_world) = false /\
  List.length (log (snd (validate_credentials
                           (exchange (Returns (AccountsObj None)) (btc_at 50000))
                           empty_world))) = 4%nat.
Proof.
  destruct (validate_credentials_none_accounts
              (exchange (Returns (AccountsObj None)) (btc_at 50000)) empty_world eq_refl)
    as [R L].
  split; [exact R|rewrite L; reflexivity].
Defined.



(** X4: [get_current_price] makes one client call, [get_product] for the
    configured pair, and nothing else besides log records; it never raises,
    and it returns the price exactly when the call returned a truthy
    product whose price converts to a float. *)
Theorem get_current_price_outcome (env : Env) (config : TradingConfig) (w : World) :
  extends_by [GetProduct (trading_pair config)] w (snd (get_current_price env config w)) /\
  fst (get_current_price env config w)
    = match get_product env (List.length (calls w)) (trading_pair config) with
      | Returns (Some p) =>
          match as_float (product_price p) with
          | Returns x => Some x
          | Raises _ => None
          end
      | _ => None
      end.
Proof.
  split; [apply get_current_price_extends|].
  unfold get_current_price, client_get_product; exec.
  destruct (get_product env _ _) as [[p|]|e]; exec; try reflexivity.
  destruct (as_float (product_price p)); reflexivity.
Qed.

Lemma parse_levels_length (levels : list BookLevel) (out : list PriceLevel) :
  parse_levels levels = Returns out -> List.length out = List.length levels.
Proof.
  revert out; induction levels as [|l r IH]; intros out; cbn [parse_levels].
  - intros E; injection E as <-; reflexivity.
  - destruct (as_float (level_price l)); [|discriminate].
    destruct (as_float (level_size l)); [|discriminate].
    destruct (parse_levels r) as [o|]; [|discriminate].
    intros E; injection E as <-; cbn [List.length]; rewrite (IH o eq_refl); reflexivity.
Qed.

Lemma parse_side_length (limit : Z) (side : option (list BookLevel))
    (out : list PriceLevel) :
  (0 <= limit)%Z ->
  parse_side limit side = Returns out ->
  (Z.of_nat (List.length out) <= limit)%Z /\
  List.length out <= match side with Some l => List.length l | None => 0 end.
Proof.
  intros L; unfold parse_side.
  destruct side as [[|b l]|]; try (intros E; injection E as <-; cbn; lia).
  intros E; apply parse_levels_length in E; rewrite E.
  unfold slice_to; destruct (0 <=? limit)%Z eqn:P; [|lia].
  rewrite length_firstn; lia.
Qed.

(** X5: for a limit [>= 0], an order book that [get_order_book] returns has
    at most [limit] bids and [limit] asks, however many levels the exchange
    sent. *)
Theorem get_order_book_bounded (env : Env) (config : TradingConfig) (limit : Z)
    (w : World) (book : OrderBook) :
  (0 <= limit)%Z ->
  fst (get_order_book env config limit w) = Some book ->
  (Z.of_nat (List.length (bids book)) <= limit)%Z /\
  (Z.of_nat (List.length (asks book)) <= limit)%Z.
Proof.
  intros L; unfold get_order_book, client_get_product_book; exec.
  destruct (get_product_book env _ _ _) as [[pb|]|e]; exec; try discriminate.
  destruct (parse_side limit (pricebook_bids pb)) as [bs|e] eqn:B; exec; try discriminate.
  destruct (parse_side limit (pricebook_asks pb)) as [al|e] eqn:A; exec; try discriminate.
  destruct (log_book_summary bs al _) as [[u|e] w1]; exec; try discriminate.
  intros E; injection E as <-; cbn [bids asks].
  apply (parse_side_length limit _ _ L) in B, A; lia.
Qed.

Lemma get_order_book_bounded_witness :
  (Z.of_nat (List.length (bids {| bids := [ {| price := 49990; size := 1 |};
                                            {| price := 49980; size := 2 |} ];
                                  asks := [ {| price := 50010; size := 1 |};
                                            {| price := 50020; size := 2 |} ] |})) <= 2)%Z /\
  (Z.of_nat (List.length (asks {| bids := [ {| price := 49990; size := 1 |};
                                            {| price := 49980; size := 2 |} ];
                                  asks := [ {| price := 50010; size := 1 |};
                                            {| price := 50020; size := 2 |} ] |})) <= 2)%Z.
Proof.
  apply (get_order_book_bounded
           (with_book (Returns (Some deep_book)) (exchange accounts_down (btc_at 50000)))
           dry_config 2 empty_world); [lia|reflexivity].
Defined.

(** X6: when both sides of the book have a level and the best ask converts
    to a zero price, the spread percentage divides by zero: the error is
    caught, [get_order_book] logs it and returns [None], although the book
    was parsed. *)
Theorem get_order_book_zero_ask (env : Env) (config : TradingConfig) (limit : Z)
    (w : World) (pb : PriceBook) (b a : PriceLevel) (bs al : list PriceLevel) :
  get_product_book env (List.length (calls w)) (trading_pair config) limit
    = Returns (Some pb) ->
  parse_side limit (pricebook_bids pb) = Returns (b :: bs) ->
  parse_side limit (pricebook_asks pb) = Returns (a :: al) ->
  (price a =? 0)%float = true ->
  fst (get_order_book env config limit w) = None /\
  last (log (snd (get_order_book env config limit w))) (DEBUG, "")
    = (ERROR, "Failed to get order book: float division by zero").
Proof.
  intros R B A Z.
  unfold get_order_book, client_get_product_book; exec; rewrite R; exec.
  rewrite B; exec; rewrite A; exec.
  unfold log_book_summary, float_div; exec; rewrite Z; exec.
  split; [reflexivity|apply last_last].
Qed.

Lemma get_order_book_zero_ask_witness :
  fst (get_order_book
         (with_book (Returns (Some zero_ask_book)) (exchange accounts_down (btc_at 50000)))
         dry_config 10 empty_world) = None /\
  last (log (snd (get_order_book
                    (with_book (Returns (Some zero_ask_book))
                       (exchange accounts_down (btc_at 50000)))
                    dry_config 10 empty_world))) (DEBUG, "")
    = (ERROR, "Failed to get order book: float division by zero").
Proof.
  apply (get_order_book_zero_ask
           (with_book (Returns (Some zero_ask_book)) (exchange accounts_down (btc_at 50000)))
           dry_config 10 empty_world zero_ask_book
           {| price := 49990; size := 1 |} {| price := 0; size := 2 |}
           [] [ {| price := 50010; size := 1 |} ]); reflexivity.
Defined.

(** X7: when the book has no asks (the attribute is missing, [None] or
    empty) and its bids convert, [get_order_book] returns the bids, cut to
    [limit], with an empty list of asks, and computes no spread. *)
Theorem get_order_book_one_sided (env : Env) (config : TradingConfig) (limit : Z)
    (w : World) (pb : PriceBook) (bs : list PriceLevel) :
  get_product_book env (List.length (calls w)) (trading_pair config) limit
    = Returns (Some pb) ->
  parse_side limit (pricebook_bids pb) = Returns bs ->
  match pricebook_asks pb with Some (_ :: _) => false | _ => true end = true ->
  fst (get_order_book env config limit w) = Some {| bids := bs; asks := [] |}.
Proof.
  intros R B A.
  unfold get_order_book, client_get_product_book; exec; rewrite R; exec.
  rewrite B; exec.
  assert (E : parse_side limit (pricebook_asks pb) = Returns []).
  { unfold parse_side; destruct (pricebook_asks pb) as [[|x l]|];
      [reflexivity|discriminate A|reflexivity]. }
  rewrite E; exec.
  unfold log_book_summary; exec.
  destruct bs; reflexivity.
Qed.

Lemma get_order_book_one_sided_witness :
  fst (get_order_book
         (with_book (Returns (Some {| pricebook_bids := Some [level_of 49990 1];
                                      pricebook_asks := None |}))
            (exchange accounts_down (btc_at 50000)))
         dry_config 10 empty_world)
    = Some {| bids := [ {| price := 49990; size := 1 |} ]; asks := [] |}.
Proof.
  apply (get_order_book_one_sided
           (with_book (Returns (Some {| pricebook_bids := Some [level_of 49990 1];
                                        pricebook_asks := None |}))
              (exchange accounts_down (btc_at 50000)))
           dry_config 10 empty_world
           {| pricebook_bids := Some [level_of 49990 1]; pricebook_asks := None |});
    reflexivity.
Defined.

Lemma find_balance_skips (cur : string) (l1 l2 : list Account) (w : World) :
  forallb (fun a => negb (String.eqb (currency a) cur)) l1 = true ->
  find_balance cur (l1 ++ l2)%list w = find_balance cur l2 w.
Proof.
  induction l1 as [|a l1 IH]; [reflexivity|].
  cbn [forallb app find_balance]; rewrite andb_true_iff, negb_true_iff.
  intros [-> H]; apply IH, H.
Qed.

(** X8: [get_account_balance] answers from the first account whose
    currency is the one asked for: its balance if the value converts to a
    float, [None] if it does not; the accounts after it are never looked
    at. *)
Theorem get_account_balance_first_match (env : Env) (cur : string) (w : World)
    (l1 l2 : list Account) (account : Account) :
  get_accounts env (List.length (calls w))
    = Returns (AccountsObj (Some (l1 ++ account :: l2)%list)) ->
  forallb (fun a => negb (String.eqb (currency a) cur)) l1 = true ->
  currency account = cur ->
  fst (get_account_balance env cur w)
    = match as_float (available_balance_value account) with
      | Returns balance => Some balance
      | Raises _ => None
      end.
Proof.
  intros R N C.
  unfold get_account_balance, client_get_accounts; exec; rewrite R; exec.
  rewrite (find_balance_skips cur l1 (account :: l2) _ N).
  cbn [find_balance]; rewrite C, String.eqb_refl; exec.
  destruct (as_float (available_balance_value account)); reflexivity.
Qed.

Lemma get_account_balance_first_match_witness :
  fst (get_account_balance
         (exchange (Returns (AccountsObj (Some [ {| currency := "BTC";
                                                    available_balance_value := field_of 2 |};
                                                 usd_account 5;
                                                 usd_account 700 ])))
            (btc_at 50000))
         "USD" empty_world) = Some 5%float.
Proof.
  apply (get_account_balance_first_match
           (exchange (Returns (AccountsObj (Some [ {| currency := "BTC";
                                                      available_balance_value := field_of 2 |};
                                                   usd_account 5;
                                                   usd_account 700 ])))
              (btc_at 50000))
           "USD" empty_world
           [ {| currency := "BTC"; available_balance_value := field_of 2 |} ]
           [ usd_account 700 ] (usd_account 5)); reflexivity.
Defined.

(** X9: when no account has the currency asked for, [get_account_balance]
    returns [None] and logs a warning; it does the same for a falsy
    response and for a response whose [accounts] is [None] or empty. *)
Theorem get_account_balance_no_match (env : Env) (cur : string) (w : World) :
  match get_accounts env (List.length (calls w)) with
  | Returns AccountsFalsy | Returns (AccountsObj None) => true
  | Returns (AccountsObj (Some l)) =>
      forallb (fun a => negb (String.eqb (currency a) cur)) l
  | _ => false
  end = true ->
  fst (get_account_balance env cur w) = None /\
  log (snd (get_account_balance env cur w))
    = (log w ++ [ (DEBUG, ("Fetching " ++ cur ++ " balance")%string);
                  (WARNING, ("No " ++ cur ++ " account found")%string) ])%list.
Proof.
  unfold get_account_balance, client_get_accounts; exec.
  destruct (get_accounts env _) as [[ |e|[l|]]|e]; exec; try discriminate; intros N.
  - split; [reflexivity|rewrite <- app_assoc; reflexivity].
  - rewrite <- (app_nil_r l), (find_balance_skips cur l [] _ N).
    cbn [find_balance]; exec.
    split; [reflexivity|rewrite <- app_assoc; reflexivity].
  - split; [reflexivity|rewrite <- app_assoc; reflexivity].
Qed.

Lemma get_account_balance_no_match_witness :
  fst (get_account_balance (exchange (holding 5) (btc_at 50000)) "BTC" empty_world) = None /\
  log (snd (get_account_balance (exchange (holding 5) (btc_at 50000)) "BTC" empty_world))
    = [ (DEBUG, "Fetching BTC balance"); (WARNING, "No BTC account found") ].
Proof.
  apply (get_account_balance_no_match (exchange (holding 5) (btc_at 50000)) "BTC"
           empty_world); reflexivity.
Defined.

(** ** The order pipeline *)

Lemma ltb_nan_r (x : float) : (x <? nan)%float = false.
Proof.
  rewrite ltb_spec; change (Prim2SF nan) with S754_nan.
  destruct (Prim2SF x) as [s|s| |s m e]; reflexivity.
Qed.

Lemma passes_guards_nan (config : TradingConfig) : passes_guards config nan = true.
Proof. unfold passes_guards; rewrite ltb_nan_r; reflexivity. Qed.

Lemma execute_market_buy_calls (env : Env) (config : TradingConfig) (a : float)
    (w : World) :
  calls (snd (_execute_market_buy env config a w))
    = match fst (get_account_balance env "USD" w) with
      | Some b =>
          if (b <? a)%float then (calls w ++ [GetAccounts])%list
          else (calls w ++
                [ GetAccounts;
                  MarketOrderBuy (uuid_str (uuid4 env (uuids_drawn w)))
                    (trading_pair config) (PyFloat.repr a) ])%list
      | None =>
          (calls w ++
           [ GetAccounts;
             MarketOrderBuy (uuid_str (uuid4 env (uuids_drawn w)))
               (trading_pair config) (PyFloat.repr a) ])%list
      end.
Proof.
  destruct (execute_market_buy_balance env config a w) as [w1 [[C [U K]] ->]].
  destruct (fst (get_account_balance env "USD" w)) as [b|];
    [destruct (b <? a)%float|];
    rewrite ?submit_market_buy_calls, ?C, ?U, <- ?app_assoc; try reflexivity.
  unfold logger; cbn [snd calls]; exact C.
Qed.

(** X10: a NaN amount passes the three guards, since every comparison with
    NaN is false, and it is not held back by the balance check either: in
    live mode [place_market_buy(nan)] always calls [market_order_buy], with
    quote size [nan]. *)
Theorem nan_amount_is_submitted (env : Env) (config : TradingConfig) (w : World) :
  is_dry_run config = false ->
  passes_guards config nan = true /\
  calls (snd (place_market_buy env config nan w))
    = (calls w ++
       [ GetAccounts;
         MarketOrderBuy (uuid_str (uuid4 env (uuids_drawn w))) (trading_pair config)
           "nan" ])%list.
Proof.
  intros D; split; [apply passes_guards_nan|].
  destruct (live_dispatch env config nan w D (passes_guards_nan config))
    as [w0 [[C0 [U0 _]] ->]].
  rewrite app_nil_r in C0.
  rewrite execute_market_buy_calls, C0, U0.
  destruct (fst (get_account_balance env "USD" w0)) as [b|]; [rewrite ltb_nan_r|];
    reflexivity.
Qed.

Lemma nan_amount_is_submitted_witness :
  passes_guards live_config nan = true /\
  calls (snd (place_market_buy (exchange (holding 5) (btc_at 50000)) live_config nan
                empty_world))
    = [ GetAccounts;
        MarketOrderBuy "3f2b8c1e-9d4a-4f6a-b0c2-7e5d1a9f4c30" "BTC-USD" "nan" ].
Proof.
  apply (nan_amount_is_submitted (exchange (holding 5) (btc_at 50000)) live_config
           empty_world); reflexivity.
Defined.

(** X11: in live mode, for an amount that passes the guards, a balance that
    was read and is not below the amount lets the order through: after the
    balance read, [market_order_buy] is called once, with a fresh client
    order id, the trading pair and [str(usd_amount)]. *)
Theorem sufficient_balance_submits (env : Env) (config : TradingConfig) (a b : float)
    (w : World) :
  is_dry_run config = false ->
  passes_guards config a = true ->
  fst (get_account_balance env "USD" w) = Some b ->
  (b <? a)%float = false ->
  calls (snd (place_market_buy env config a w))
    = (calls w ++
       [ GetAccounts;
         MarketOrderBuy (uuid_str (uuid4 env (uuids_drawn w))) (trading_pair config)
           (PyFloat.repr a) ])%list.
Proof.
  intros D G B L.
  destruct (live_dispatch env config a w D G) as [w0 [[C0 [U0 _]] ->]].
  rewrite app_nil_r in C0.
  rewrite execute_market_buy_calls, (get_account_balance_result env "USD" w w0 C0), B, L,
    C0, U0.
  reflexivity.
Qed.

Lemma sufficient_balance_submits_witness :
  calls (snd (place_market_buy (exchange (holding 10) (btc_at 50000)) live_config 10
                empty_world))
    = [ GetAccounts;
        MarketOrderBuy "3f2b8c1e-9d4a-4f6a-b0c2-7e5d1a9f4c30" "BTC-USD" "10.0" ].
Proof.
  apply (sufficient_balance_submits (exchange (holding 10) (btc_at 50000)) live_config
           10 10 empty_world); reflexivity.
Defined.

Lemma rejected_calls (env : Env) (config : TradingConfig) (a : float) (w : World) :
  passes_guards config a = false ->
  calls (snd (place_market_buy env config a w)) = calls w.
Proof.
  unfold passes_guards, place_market_buy; exec.
  destruct (a <=? 0)%float; [reflexivity|].
  destruct (max_order_usd config <? a)%float; [reflexivity|].
  destruct (a <? 1)%float; [reflexivity|discriminate].
Qed.

(** X12: whatever the environment, the configuration and the amount,
    [place_market_buy] makes at most two client calls and submits at most
    one order; in a dry run, and for an amount that does not pass the
    guards, it submits none. *)
Theorem at_most_one_submission (env : Env) (config : TradingConfig) (a : float)
    (w : World) :
  exists cs,
    calls (snd (place_market_buy env config a w)) = (calls w ++ cs)%list /\
    List.length cs <= 2 /\
    List.length (filter is_submission cs) <= 1 /\
    existsb is_submission cs && (is_dry_run config || negb (passes_guards config a))
      = false.
Proof.
  destruct (passes_guards config a) eqn:G.
  - destruct (is_dry_run config) eqn:D.
    + destruct (dry_dispatch env config a w D G) as [w0 [[C0 _] ->]].
      destruct (simulate_market_buy_spec env config a w0) as [_ [C _]].
      exists [GetProduct (trading_pair config)]; cbn [snd].
      rewrite C, C0, app_nil_r; cbn; repeat split; lia.
    + destruct (live_dispatch env config a w D G) as [w0 [[C0 [U0 _]] ->]].
      rewrite app_nil_r in C0; rewrite execute_market_buy_calls, C0.
      destruct (fst (get_account_balance env "USD" w0)) as [b|];
        [destruct (b <? a)%float|];
        eexists; (split; [reflexivity|]); cbn; repeat split; lia.
  - exists []; rewrite app_nil_r, (rejected_calls env config a w G).
    cbn; repeat split; lia.
Qed.

Lemma submit_market_buy_order (env : Env) (config : TradingConfig) (a : float)
    (w : World) (o : dict) :
  fst (submit_market_buy env config a w) = Some o ->
  exists ack,
    market_order_buy env (List.length (calls w)) (uuid_str (uuid4 env (uuids_drawn w)))
      (trading_pair config) (PyFloat.repr a) = Returns (Some ack) /\
    o = [ ("order_id", match ack_order_id ack with Some i => i | None => "N/A" end);
          ("client_order_id", uuid_str (uuid4 env (uuids_drawn w)));
          ("product_id", trading_pair config);
          ("side", "BUY");
          ("type", "MARKET");
          ("quote_size", PyFloat.repr a);
          ("status", "PLACED");
          ("timestamp", now_isoformat env (clock_reads w)) ].
Proof.
  unfold submit_market_buy, uuid_uuid4, client_market_order_buy, datetime_now_isoformat;
    exec.
  destruct (market_order_buy env _ _ _ _) as [[ack|]|e]; exec; try discriminate.
  intros E; injection E as <-; exists ack; split; reflexivity.
Qed.

(** X13: an order that [_execute_market_buy] returns was acknowledged by
    the exchange and repeats what was sent: its status is [PLACED], its
    client order id, product and quote size are the arguments of the
    [market_order_buy] call, which is the last client call made, and its
    order id is the exchange's, or [N/A] when the acknowledgement has
    none. *)
Theorem placed_order_echoes_submission (env : Env) (config : TradingConfig) (a : float)
    (w : World) (o : dict) :
  fst (_execute_market_buy env config a w) = Some o ->
  exists ack,
    market_order_buy env (S (List.length (calls w)))
      (uuid_str (uuid4 env (uuids_drawn w))) (trading_pair config) (PyFloat.repr a)
      = Returns (Some ack) /\
    last (calls (snd (_execute_market_buy env config a w))) GetAccounts
      = MarketOrderBuy (uuid_str (uuid4 env (uuids_drawn w))) (trading_pair config)
          (PyFloat.repr a) /\
    dict_get "status" o = Some "PLACED" /\
    dict_get "client_order_id" o = Some (uuid_str (uuid4 env (uuids_drawn w))) /\
    dict_get "product_id" o = Some (trading_pair config) /\
    dict_get "quote_size" o = Some (PyFloat.repr a) /\
    dict_get "order_id" o
      = Some (match ack_order_id ack with Some i => i | None => "N/A" end).
Proof.
  rewrite execute_market_buy_calls.
  destruct (execute_market_buy_balance env config a w) as [w1 [[C [U K]] ->]].
  assert (S : forall x : option dict * World,
            x = submit_market_buy env config a w1 -> fst x = Some o ->
            exists ack,
              market_order_buy env (S (List.length (calls w)))
                (uuid_str (uuid4 env (uuids_drawn w))) (trading_pair config) (PyFloat.repr a)
                = Returns (Some ack) /\
              o = [ ("order_id", match ack_order_id ack with Some i => i | None => "N/A" end);
                    ("client_order_id", uuid_str (uuid4 env (uuids_drawn w)));
                    ("product_id", trading_pair config);
                    ("side", "BUY");
                    ("type", "MARKET");
                    ("quote_size", PyFloat.repr a);
                    ("status", "PLACED");
                    ("timestamp", now_isoformat env (clock_reads w)) ]).
  { intros x -> E; apply submit_market_buy_order in E.
    rewrite C, U, K, length_app, Nat.add_1_r in E; exact E. }
  destruct (fst (get_account_balance env "USD" w)) as [b|];
    [destruct (b <? a)%float; [discriminate|]|];
    intros E; destruct (S _ eq_refl E) as [ack [R ->]]; exists ack;
    (split; [exact R|]);
    (split;
     [ match goal with |- last (?l ++ [?x; ?y])%list _ = _ =>
         change (l ++ [x; y])%list with (l ++ [x] ++ [y])%list
       end;
       rewrite app_assoc; apply last_last | ]);
    repeat split.
Qed.

Lemma placed_order_echoes_submission_witness :
  exists ack,
    market_order_buy (exchange accounts_down (btc_at 50000)) 1
      "3f2b8c1e-9d4a-4f6a-b0c2-7e5d1a9f4c30" "BTC-USD" "10.0" = Returns (Some ack) /\
    last (calls (snd (_execute_market_buy (exchange accounts_down (btc_at 50000))
                        live_config 10 empty_world))) GetAccounts
      = MarketOrderBuy "3f2b8c1e-9d4a-4f6a-b0c2-7e5d1a9f4c30" "BTC-USD" "10.0".
Proof.
  assert (E : fst (_execute_market_buy (exchange accounts_down (btc_at 50000))
                     live_config 10 empty_world)
              = Some [ ("order_id", "5f1c9a77-order");
                       ("client_order_id", "3f2b8c1e-9d4a-4f6a-b0c2-7e5d1a9f4c30");
                       ("product_id", "BTC-USD");
                       ("side", "BUY");
                       ("type", "MARKET");
                       ("quote_size", "10.0");
                       ("status", "PLACED");
                       ("timestamp", "2024-05-01T12:00:00.000000") ])
    by (vm_compute; reflexivity).
  destruct (placed_order_echoes_submission (exchange accounts_down (btc_at 50000))
              live_config 10 empty_world _ E) as [ack [R [L _]]].
  exists ack; split; [exact R|exact L].
Defined.

(** X14: when the exchange raises on [market_order_buy], or answers with a
    falsy value, the [try] block of [_execute_market_buy] returns [None]:
    the exception is caught and logged with a hint, the empty answer is
    logged, and nothing is retried. *)
Theorem failed_submission_returns_none (env : Env) (config : TradingConfig) (a : float)
    (w : World) :
  (forall e,
     market_order_buy env (List.length (calls w)) (uuid_str (uuid4 env (uuids_drawn w)))
       (trading_pair config) (PyFloat.repr a) = Raises e ->
     fst (submit_market_buy env config a w) = None /\
     log (snd (submit_market_buy env config a w))
       = (log w ++
          [ (INFO, ("Placing market buy order for $" ++ PyFloat.format_f 2 a ++ "...")%string);
            (ERROR, ("Order execution failed: " ++ e)%string);
            (ERROR, "Check your account balance and API permissions") ])%list) /\
  (market_order_buy env (List.length (calls w)) (uuid_str (uuid4 env (uuids_drawn w)))
     (trading_pair config) (PyFloat.repr a) = Returns None ->
   fst (submit_market_buy env config a w) = None /\
   log (snd (submit_market_buy env config a w))
     = (log w ++
        [ (INFO, ("Placing market buy order for $" ++ PyFloat.format_f 2 a ++ "...")%string);
          (ERROR, "Order returned empty response") ])%list).
Proof.
  split; [intros e R|intros R];
    unfold submit_market_buy, uuid_uuid4, client_market_order_buy; exec;
    rewrite R; exec; (split; [reflexivity|rewrite <- !app_assoc; reflexivity]).
Qed.

Lemma failed_submission_returns_none_witness :
  fst (submit_market_buy (with_orders (Raises "INSUFFICIENT_FUND")
                            (exchange (holding 100) (btc_at 50000)))
         live_config 10 empty_world) = None /\
  log (snd (submit_market_buy (with_orders (Raises "INSUFFICIENT_FUND")
                                 (exchange (holding 100) (btc_at 50000)))
              live_config 10 empty_world))
    = [ (INFO, "Placing market buy order for $10.00...");
        (ERROR, "Order execution failed: INSUFFICIENT_FUND");
        (ERROR, "Check your account balance and API permissions") ].
Proof.
  destruct (failed_submission_returns_none
              (with_orders (Raises "INSUFFICIENT_FUND")
                 (exchange (holding 100) (btc_at 50000)))
              live_config 10 empty_world) as [H _].
  exact (H "INSUFFICIENT_FUND" eq_refl).
Defined.

Lemma hex_digits_length (n : nat) (v : N) : String.length (hex_digits n v) = n.
Proof. induction n as [|n IH]; cbn [hex_digits String.length]; congruence. Qed.

Lemma uuid_str_length (u : N) : String.length (uuid_str u) = 36.
Proof. reflexivity. Qed.


Lemma upper_char_idempotent (c : ascii) :
  PyStr.upper_char (PyStr.upper_char c) = PyStr.upper_char c.
Proof. destruct c as [[] [] [] [] [] [] [] []]; reflexivity. Qed.

Lemma upper_idempotent (s : string) : PyStr.upper (PyStr.upper s) = PyStr.upper s.
Proof.
  induction s as [|c s IH]; [reflexivity|].
  unfold PyStr.upper in *; cbn [PyStr.map]; rewrite upper_char_idempotent, IH; reflexivity.
Qed.

Lemma map_length (f : ascii -> ascii) (s : string) :
  String.length (PyStr.map f s) = String.length s.
Proof. induction s; cbn [PyStr.map String.length]; congruence. Qed.

(** X16: the order id of a simulated order has 16 characters, [DRY-RUN-]
    and eight more, none of them a lower-case letter; no simulated order id
    has the form of a client order id. *)
Theorem simulated_order_id_shape (env : Env) (config : TradingConfig) (a : float)
    (w : World) :
  exists id,
    dict_get "order_id" (fst (_simulate_market_buy env config a w)) = Some id /\
    String.length id = 16 /\
    PyStr.take 8 id = "DRY-RUN-" /\
    PyStr.upper id = id /\
    forall u, id <> uuid_str u.
Proof.
  destruct (simulate_market_buy_spec env config a w) as [-> _].
  eexists; split; [reflexivity|].
  assert (L : String.length
                ("DRY-RUN-" ++
                 PyStr.upper (PyStr.take 8 (uuid_hex (uuid4 env (uuids_drawn w))))) = 16).
  { rewrite length_append; unfold PyStr.upper; rewrite map_length; reflexivity. }
  split; [exact L|split; [reflexivity|split]].
  - change (PyStr.upper ("DRY-RUN-" ++ ?x)) with ("DRY-RUN-" ++ PyStr.upper x).
    rewrite upper_idempotent; reflexivity.
  - intros u E; rewrite E in L.
    rewrite uuid_str_length in L; discriminate L.
Qed.

(** ** Loading the configuration *)

(** X17: a configuration that [load_config] returns has neither an empty
    credential nor one of the two placeholders, and every field of it is
    the value of its environment variable, or the default ([dry_run],
    [BTC-USD]) when the variable is not set. *)
Theorem load_config_returns_credentials (environ : string -> option string)
    (float_of_str : string -> py float) (config : TradingConfig) :
  snd (load_config environ float_of_str) = Done config ->
  (negb (String.eqb (api_key config) "") &&
   negb (String.eqb (api_key config) "your_api_key_here") &&
   negb (String.eqb (api_secret config) "") &&
   negb (String.eqb (api_secret config) "your_api_secret_here") = true) /\
  environ "COINBASE_API_KEY" = Some (api_key config) /\
  environ "COINBASE_API_SECRET" = Some (api_secret config) /\
  trading_mode config = os_getenv environ "TRADING_MODE" "dry_run" /\
  trading_pair config = os_getenv environ "TRADING_PAIR" "BTC-USD" /\
  float_of_str (os_getenv environ "MAX_ORDER_USD" "50.0") = Returns (max_order_usd config).
Proof.
  unfold load_config, os_getenv.
  destruct (environ "COINBASE_API_KEY") as [k|]; [|discriminate].
  destruct (String.eqb k "") eqn:K1; [discriminate|].
  destruct (String.eqb k "your_api_key_here") eqn:K2; [discriminate|].
  destruct (environ "COINBASE_API_SECRET") as [s|]; [|discriminate].
  destruct (String.eqb s "") eqn:S1; [discriminate|].
  destruct (String.eqb s "your_api_secret_here") eqn:S2; [discriminate|].
  cbn [orb].
  destruct (float_of_str _) as [m|e]; [|discriminate].
  cbn [snd]; intros E; injection E as <-; cbn [api_key api_secret trading_mode
    trading_pair max_order_usd].
  rewrite K1, K2, S1, S2; repeat split.
Qed.

Lemma load_config_returns_credentials_witness :
  environ_of credentials "COINBASE_API_KEY" = Some "organizations/acme/apiKeys/0001" /\
  trading_mode dry_config = os_getenv (environ_of credentials) "TRADING_MODE" "dry_run" /\
  float_of_example (os_getenv (environ_of credentials) "MAX_ORDER_USD" "50.0")
    = Returns 50%float.
Proof.
  destruct (load_config_returns_credentials (environ_of credentials) float_of_example
              dry_config eq_refl) as [_ [K [_ [M [_ F]]]]].
  split; [exact K|split; [exact M|exact F]].
Defined.

(** X18: without an API key, or with the placeholder still in place,
    [load_config] prints the two lines about the key and exits with code 1,
    whatever else the environment holds; with a key but without a secret,
    or with its placeholder, it prints the two lines about the secret and
    exits with code 1. *)
Theorem load_config_exits_without_credentials (environ : string -> option string)
    (float_of_str : string -> py float) :
  (String.eqb (os_getenv environ "COINBASE_API_KEY" "") "" ||
   String.eqb (os_getenv environ "COINBASE_API_KEY" "") "your_api_key_here" = true ->
   load_config environ float_of_str
     = ([ "ERROR: COINBASE_API_KEY not set or still has placeholder value";
          "Please copy .env.example to .env and add your API credentials" ],
        SystemExit 1)) /\
  (String.eqb (os_getenv environ "COINBASE_API_KEY" "") "" ||
   String.eqb (os_getenv environ "COINBASE_API_KEY" "") "your_api_key_here" = false ->
   String.eqb (os_getenv environ "COINBASE_API_SECRET" "") "" ||
   String.eqb (os_getenv environ "COINBASE_API_SECRET" "") "your_api_secret_here" = true ->
   load_config environ float_of_str
     = ([ "ERROR: COINBASE_API_SECRET not set or still has placeholder value";
          "Please copy .env.example to .env and add your API credentials" ],
        SystemExit 1)).
Proof.
  unfold load_config; split.
  - intros ->; reflexivity.
  - intros -> ->; reflexivity.
Qed.

Lemma load_config_exits_without_credentials_witness :
  snd (load_config (environ_of [("COINBASE_API_SECRET", "s3cr3t-material");
                                ("TRADING_MODE", "live")]) float_of_example)
    = SystemExit 1 /\
  snd (load_config (environ_of [("COINBASE_API_KEY", "organizations/acme/apiKeys/0001");
                                ("COINBASE_API_SECRET", "your_api_secret_here")])
         float_of_example)
    = SystemExit 1.
Proof.
  split.
  - destruct (load_config_exits_without_credentials
                (environ_of [("COINBASE_API_SECRET", "s3cr3t-material");
                             ("TRADING_MODE", "live")]) float_of_example) as [H _].
    rewrite (H eq_refl); reflexivity.
  - destruct (load_config_exits_without_credentials
                (environ_of [("COINBASE_API_KEY", "organizations/acme/apiKeys/0001");
                             ("COINBASE_API_SECRET", "your_api_secret_here")])
                float_of_example) as [_ H].
    rewrite (H eq_refl eq_refl); reflexivity.
Defined.

Lemma dry_run_calls (env : Env) (config : TradingConfig) (a : float) (w : World) :
  is_dry_run config = true ->
  calls (snd (place_market_buy env config a w))
    = (calls w ++ if passes_guards config a then [GetProduct (trading_pair config)] else [])%list.
Proof.
  intros D; destruct (passes_guards config a) eqn:G.
  - destruct (dry_dispatch env config a w D G) as [w0 [[C0 _] ->]].
    destruct (simulate_market_buy_spec env config a w0) as [_ [C _]].
    cbn [snd]; rewrite C, C0, app_nil_r; reflexivity.
  - rewrite app_nil_r; apply rejected_calls, G.
Qed.

(** X19: the default mode is the safe one: when [TRADING_MODE] is not set,
    a configuration that [load_config] returns is a dry run, and
    [place_market_buy] under it makes no client call other than the price
    fetch of the simulation: it never submits an order. *)
Theorem load_config_defaults_to_dry_run (environ : string -> option string)
    (float_of_str : string -> py float) (config : TradingConfig) :
  environ "TRADING_MODE" = None ->
  snd (load_config environ float_of_str) = Done config ->
  trading_mode config = "dry_run" /\
  is_dry_run config = true /\
  forall env a w,
    existsb is_submission (calls (snd (place_market_buy env config a w)))
      = existsb is_submission (calls w).
Proof.
  intros N L.
  assert (M : trading_mode config = "dry_run").
  { revert L; unfold load_config, os_getenv; rewrite N.
    destruct (_ || _); [discriminate|].
    destruct (_ || _); [discriminate|].
    destruct (float_of_str _); [|discriminate].
    cbn [snd]; intros E; injection E as <-; reflexivity. }
  assert (D : is_dry_run config = true) by (unfold is_dry_run; rewrite M; reflexivity).
  split; [exact M|split; [exact D|]].
  intros env a w; rewrite (dry_run_calls env config a w D), existsb_app.
  destruct (passes_guards config a); cbn [existsb is_submission]; rewrite !orb_false_r;
    reflexivity.
Qed.

Lemma load_config_defaults_to_dry_run_witness :
  is_dry_run dry_config = true /\
  existsb is_submission
    (calls (snd (place_market_buy (exchange (holding 100) (btc_at 50000)) dry_config 10
                   empty_world))) = false.
Proof.
  destruct (load_config_defaults_to_dry_run (environ_of credentials) float_of_example
              dry_config eq_refl eq_refl) as [_ [D S]].
  split; [exact D|].
  rewrite (S (exchange (holding 100) (btc_at 50000)) 10%float empty_world); reflexivity.
Defined.



(** ** The command line *)

Lemma print_all_world (l : list string) (t : Session) :
  world (print_all l t) = world t /\ lines_read (print_all l t) = lines_read t.
Proof.
  revert t; induction l as [|s l IH]; intros t; [split; reflexivity|].
  unfold print_all in *; cbn [fold_left]; rewrite (proj1 (IH _)), (proj2 (IH _)).
  split; reflexivity.
Qed.

Lemma run_diagnostics_calls (env : Env) (config : TradingConfig) (w : World) :
  calls (snd (run_diagnostics env config w))
    = (calls w ++
       [ GetAccounts;
         GetProduct (trading_pair config);
         GetProductBook (trading_pair config) 5;
         GetAccounts ])%list.
Proof.
  unfold run_diagnostics; run.
  next_call (validate_credentials env) (validate_credentials_extends env)
    (validate_credentials_result env) w.
  destruct b; cbn [negb]; run;
    next_call (get_current_price env config) (get_current_price_extends env config)
      (get_current_price_result env config) w;
    match goal with x : option _ |- _ => destruct x end; run;
    next_call (get_order_book env config 5) (get_order_book_extends env config 5)
      (get_order_book_result env config 5) w;
    match goal with x : option _ |- _ => destruct x end; run;
    next_call (get_account_balance env "USD") (get_account_balance_extends env "USD")
      (get_account_balance_result env "USD") w;
    match goal with x : option _ |- _ => destruct x end; run;
    repeat match goal with H : calls _ = _ |- _ => rewrite H end;
    rewrite <- ?app_assoc; reflexivity.
Qed.

Lemma place_market_buy_truthy (env : Env) (config : TradingConfig) (a : float)
    (w : World) :
  result_truthy (fst (place_market_buy env config a w))
    = is_some (fst (place_market_buy env config a w)).
Proof.
  destruct (passes_guards config a) eqn:G.
  - destruct (is_dry_run config) eqn:D.
    + destruct (dry_dispatch env config a w D G) as [w0 [_ ->]].
      destruct (simulate_market_buy_spec env config a w0) as [-> _]; reflexivity.
    + destruct (live_dispatch env config a w D G) as [w0 [_ ->]].
      destruct (fst (_execute_market_buy env config a w0)) as [o|] eqn:E; [|reflexivity].
      destruct (execute_market_buy_balance env config a w0) as [w1 [_ X]].
      rewrite X in E.
      destruct (fst (get_account_balance env "USD" w0)) as [b|];
        [destruct (b <? a)%float; [discriminate E|]|];
        apply submit_market_buy_order in E; destruct E as [ack [_ ->]]; reflexivity.
  - revert G; unfold passes_guards, place_market_buy; exec.
    destruct (a <=? 0)%float; [reflexivity|].
    destruct (max_order_usd config <? a)%float; [reflexivity|].
    destruct (a <? 1)%float; [reflexivity|discriminate].
Qed.

Lemma existsb_submission_app (l cs : list Call) :
  existsb is_submission cs = false ->
  existsb is_submission (l ++ cs) = existsb is_submission l.
Proof. intros H; rewrite existsb_app, H; apply orb_false_r. Qed.

Lemma main_commands_dry_run (env : Env) (typed : nat -> py string)
    (config : TradingConfig) (args : Args) (t : Session) :
  is_dry_run config = true ->
  existsb is_submission (calls (world (snd (main_commands env typed config args t))))
    = existsb is_submission (calls (world t)).
Proof.
  intros D; unfold main_commands, on_bot.
  destruct (arg_diagnose args).
  { pose proof (run_diagnostics_calls env config (world t)) as C.
    destruct (run_diagnostics env config (world t)) as [b w1]; cbn [fst snd world] in *.
    rewrite C; apply existsb_submission_app; reflexivity. }
  destruct (arg_price args).
  { pose proof (get_current_price_extends env config (world t)) as [C _].
    destruct (get_current_price env config (world t)) as [p w1]; cbn [fst snd world] in *.
    rewrite C; apply existsb_submission_app; reflexivity. }
  destruct (arg_orderbook args).
  { pose proof (get_order_book_extends env config 10 (world t)) as [C _].
    destruct (get_order_book env config 10 (world t)) as [[b|] w1];
      cbn [fst snd world] in *;
      rewrite ?(proj1 (print_all_world _ _)); unfold print; cbn [world];
      rewrite ?(proj1 (print_all_world _ _)); cbn [world];
      rewrite C; apply existsb_submission_app; reflexivity. }
  destruct (arg_buy args) as [a|]; [|reflexivity].
  rewrite D; cbn [negb]; unfold input, print; cbn [world stdout lines_read].
  destruct (typed (lines_read t)) as [line|e]; [|reflexivity].
  destruct (String.eqb _ "yes"); [|reflexivity].
  cbn [world].
  pose proof (dry_run_calls env config a (world t) D) as C.
  destruct (place_market_buy env config a (world t)) as [r w1]; cbn [fst snd world] in *.
  rewrite C; apply existsb_submission_app.
  destruct (passes_guards config a); reflexivity.
Qed.

(** X21: [--dry-run] wins over [--live], and either flag wins over the
    environment: after the override the configuration is a dry run if
    [--dry-run] was given, live if only [--live] was given, and as loaded
    otherwise; the credentials, the limit and the pair are never touched,
    and at most one line is printed. *)
Theorem override_mode_precedence (args : Args) (config : TradingConfig) :
  is_dry_run (snd (override_mode args config))
    = (if arg_dry_run args then true
       else if arg_live args then false
       else is_dry_run config) /\
  api_key (snd (override_mode args config)) = api_key config /\
  api_secret (snd (override_mode args config)) = api_secret config /\
  max_order_usd (snd (override_mode args config)) = max_order_usd config /\
  trading_pair (snd (override_mode args config)) = trading_pair config /\
  List.length (fst (override_mode args config))
    = (if arg_dry_run args || arg_live args then 1 else 0)%nat.
Proof.
  unfold override_mode.
  destruct (arg_dry_run args); [repeat split|].
  destruct (arg_live args); repeat split.
Qed.

(** X22: with [--dry-run] on the command line, no command of [main]
    submits an order, whatever mode the environment configured, whatever
    other flags are given (even [--live]) and whatever is typed at the
    prompt. *)
Theorem dry_run_flag_never_submits (env : Env) (typed : nat -> py string)
    (config : TradingConfig) (args : Args) (t : Session) :
  arg_dry_run args = true ->
  is_dry_run (snd (override_mode args config)) = true /\
  existsb is_submission
    (calls (world (snd (main_commands env typed (snd (override_mode args config)) args t))))
    = existsb is_submission (calls (world t)).
Proof.
  intros F.
  assert (D : is_dry_run (snd (override_mode args config)) = true)
    by (unfold override_mode; rewrite F; reflexivity).
  split; [exact D|apply main_commands_dry_run, D].
Qed.

Lemma dry_run_flag_never_submits_witness :
  is_dry_run (snd (override_mode (forcing_dry_run (forcing_live (buy_args 10)))
                     live_config)) = true /\
  existsb is_submission
    (calls (world (snd (main_commands (exchange (holding 100) (btc_at 50000))
                          (typing "yes")
                          (snd (override_mode (forcing_dry_run (forcing_live (buy_args 10)))
                                  live_config))
                          (forcing_dry_run (forcing_live (buy_args 10)))
                          (start empty_world))))) = false.
Proof.
  destruct (dry_run_flag_never_submits (exchange (holding 100) (btc_at 50000))
              (typing "yes") live_config (forcing_dry_run (forcing_live (buy_args 10)))
              (start empty_world) eq_refl) as [D S].
  split; [exact D|rewrite S; reflexivity].
Defined.



(** X24: a confirmed [--buy] calls [place_market_buy] once with the amount
    of the command line, from the bot's state as it was, and exits with
    code 0 exactly when an order, simulated or placed, came back. *)
Theorem confirmed_buy_places_order (env : Env) (typed : nat -> py string)
    (config : TradingConfig) (args : Args) (t : Session) (a : float) (line : string) :
  arg_diagnose args = false ->
  arg_price args = false ->
  arg_orderbook args = false ->
  arg_buy args = Some a ->
  typed (lines_read t) = Returns line ->
  String.eqb (PyStr.lower (strip line)) "yes" = true ->
  fst (main_commands env typed config args t)
    = SystemExit (if is_some (fst (place_market_buy env config a (world t))) then 0 else 1) /\
  world (snd (main_commands env typed config args t))
    = snd (place_market_buy env config a (world t)) /\
  lines_read (snd (main_commands env typed config args t)) = S (lines_read t).
Proof.
  intros A1 A2 A3 A4 T Y; unfold main_commands; rewrite A1, A2, A3, A4.
  unfold input, on_bot.
  pose proof (place_market_buy_truthy env config a (world t)) as R.
  destruct (is_dry_run config); cbn [negb]; unfold print; cbn [world stdout lines_read];
    rewrite T, Y; cbn [world stdout lines_read];
    destruct (place_market_buy env config a (world t)) as [r w1];
    cbn [fst snd world lines_read] in *; rewrite R; repeat split.
Qed.

Lemma confirmed_buy_places_order_witness :
  fst (main_commands (exchange (holding 5) (btc_at 50000)) (typing "  YES ") live_config
         (buy_args 10) (start empty_world)) = SystemExit 1 /\
  calls (world (snd (main_commands (exchange (holding 5) (btc_at 50000)) (typing "  YES ")
                       live_config (buy_args 10) (start empty_world)))) = [GetAccounts].
Proof.
  destruct (confirmed_buy_places_order (exchange (holding 5) (btc_at 50000))
              (typing "  YES ") live_config (buy_args 10) (start empty_world) 10 "  YES "
              eq_refl eq_refl eq_refl eq_refl eq_refl eq_refl) as [E [W _]].
  split; [rewrite E; reflexivity|rewrite W; reflexivity].
Defined.

(** X25: [--diagnose] comes first: with it, [main] runs the diagnostics,
    four client calls, and exits with code 0 if they passed and 1 if not;
    it prints nothing, reads nothing from the prompt and places no order,
    even when [--buy] is given as well. *)
Theorem diagnose_runs_alone (env : Env) (typed : nat -> py string)
    (config : TradingConfig) (args : Args) (t : Session) :
  arg_diagnose args = true ->
  fst (main_commands env typed config args t)
    = SystemExit (if fst (run_diagnostics env config (world t)) then 0 else 1) /\
  calls (world (snd (main_commands env typed config args t)))
    = (calls (world t) ++
       [ GetAccounts;
         GetProduct (trading_pair config);
         GetProductBook (trading_pair config) 5;
         GetAccounts ])%list /\
  stdout (snd (main_commands env typed config args t)) = stdout t /\
  lines_read (snd (main_commands env typed config args t)) = lines_read t.
Proof.
  intros A; unfold main_commands, on_bot; rewrite A.
  pose proof (run_diagnostics_calls env config (world t)) as C.
  destruct (run_diagnostics env config (world t)) as [b w1];
    cbn [fst snd world stdout lines_read] in *.
  repeat split; exact C.
Qed.

Lemma diagnose_runs_alone_witness :
  calls (world (snd (main_commands (exchange (holding 100) (btc_at 50000)) (typing "yes")
                       live_config
                       {| arg_diagnose := true; arg_price := false; arg_orderbook := false;
                          arg_buy := Some 10%float; arg_dry_run := false;
                          arg_live := true |}
                       (start empty_world))))
    = [ GetAccounts; GetProduct "BTC-USD"; GetProductBook "BTC-USD" 5; GetAccounts ] /\
  lines_read (snd (main_commands (exchange (holding 100) (btc_at 50000)) (typing "yes")
                     live_config
                     {| arg_diagnose := true; arg_price := false; arg_orderbook := false;
                        arg_buy := Some 10%float; arg_dry_run := false;
                        arg_live := true |}
                     (start empty_world))) = 0.
Proof.
  destruct (diagnose_runs_alone (exchange (holding 100) (btc_at 50000)) (typing "yes")
              live_config
              {| arg_diagnose := true; arg_price := false; arg_orderbook := false;
                 arg_buy := Some 10%float; arg_dry_run := false; arg_live := true |}
              (start empty_world) eq_refl) as [_ [C [_ L]]].
  split; [exact C|exact L].
Defined.

(** X26: [--price] exits with code 0 only for a price that was fetched and
    is not zero: a fetched price of 0.0 gives exit code 1, like a failed
    fetch. *)
Theorem price_command_exit_code (env : Env) (typed : nat -> py string)
    (config : TradingConfig) (args : Args) (t : Session) :
  arg_diagnose args = false ->
  arg_price args = true ->
  fst (main_commands env typed config args t)
    = SystemExit (match fst (get_current_price env config (world t)) with
                  | Some p => if (p =? 0)%float then 1 else 0
                  | None => 1
                  end) /\
  calls (world (snd (main_commands env typed config args t)))
    = (calls (world t) ++ [GetProduct (trading_pair config)])%list.
Proof.
  intros A1 A2; unfold main_commands, on_bot; rewrite A1, A2.
  pose proof (get_current_price_extends env config (world t)) as [C _].
  destruct (get_current_price env config (world t)) as [[p|] w1];
    cbn [fst snd world] in *; (split; [|exact C]); [|reflexivity].
  unfold float_truthy; destruct (p =? 0)%float; reflexivity.
Qed.

Lemma price_command_exit_code_witness :
  fst (main_commands (exchange accounts_down (btc_at 0)) (typing "")
         dry_config
         {| arg_diagnose := false; arg_price := true; arg_orderbook := false;
            arg_buy := None; arg_dry_run := false; arg_live := false |}
         (start empty_world)) = SystemExit 1 /\
  fst (get_current_price (exchange accounts_down (btc_at 0)) dry_config empty_world)
    = Some 0%float.
Proof.
  destruct (price_command_exit_code (exchange accounts_down (btc_at 0)) (typing "")
              dry_config
              {| arg_diagnose := false; arg_price := true; arg_orderbook := false;
                 arg_buy := None; arg_dry_run := false; arg_live := false |}
              (start empty_world) eq_refl eq_refl) as [E _].
  split; [rewrite E; reflexivity|reflexivity].
Defined.

(** ** Timestamps and verdicts *)

Lemma submit_market_buy_clock (env : Env) (config : TradingConfig) (a : float)
    (w : World) :
  clock_reads (snd (submit_market_buy env config a w))
    = (clock_reads w + if is_some (fst (submit_market_buy env config a w)) then 1 else 0)%nat.
Proof.
  unfold submit_market_buy, uuid_uuid4, client_market_order_buy, datetime_now_isoformat;
    exec.
  destruct (market_order_buy env _ _ _ _) as [[ack|]|e]; exec; cbn [is_some]; lia.
Qed.

(** X27: [place_market_buy] reads the clock exactly when it returns an
    order, once, for the order's timestamp: a rejected amount, a balance
    that is too low and a submission that fails read no time. *)
Theorem clock_read_iff_order (env : Env) (config : TradingConfig) (a : float)
    (w : World) :
  clock_reads (snd (place_market_buy env config a w))
    = (clock_reads w +
       if is_some (fst (place_market_buy env config a w)) then 1 else 0)%nat /\
  (forall o,
     fst (place_market_buy env config a w) = Some o ->
     dict_get "timestamp" o = Some (now_isoformat env (clock_reads w))).
Proof.
  destruct (passes_guards config a) eqn:G.
  - destruct (is_dry_run config) eqn:D.
    + destruct (dry_dispatch env config a w D G) as [w0 [[_ [_ K0]] ->]].
      destruct (simulate_market_buy_spec env config a w0) as [O [_ [_ K]]].
      cbn [fst snd is_some]; rewrite K, K0; split; [lia|].
      intros o E; injection E as <-; rewrite O, K0; reflexivity.
    + destruct (live_dispatch env config a w D G) as [w0 [[_ [_ K0]] ->]].
      destruct (execute_market_buy_balance env config a w0) as [w1 [[_ [_ K1]] ->]].
      assert (S : clock_reads (snd (submit_market_buy env config a w1))
                  = (clock_reads w +
                     if is_some (fst (submit_market_buy env config a w1)) then 1 else 0)%nat)
        by (rewrite submit_market_buy_clock, K1, K0; reflexivity).
      assert (T : forall o, fst (submit_market_buy env config a w1) = Some o ->
                            dict_get "timestamp" o = Some (now_isoformat env (clock_reads w))).
      { intros o E; apply submit_market_buy_order in E; destruct E as [ack [_ ->]].
        rewrite K1, K0; reflexivity. }
      destruct (fst (get_account_balance env "USD" w0)) as [b|];
        [destruct (b <? a)%float|]; try (split; [exact S|exact T]).
      unfold logger; cbn [fst snd clock_reads is_some]; rewrite K1, K0.
      split; [lia|discriminate].
  - revert G; unfold passes_guards, place_market_buy; exec.
    destruct (a <=? 0)%float;
      [intros _; exec; cbn [is_some]; split; [lia|discriminate]|].
    destruct (max_order_usd config <? a)%float;
      [intros _; exec; cbn [is_some]; split; [lia|discriminate]|].
    destruct (a <? 1)%float;
      [intros _; exec; cbn [is_some]; split; [lia|discriminate]|discriminate].
Qed.

Lemma clock_read_iff_order_witness :
  clock_reads (snd (place_market_buy (exchange accounts_down (btc_at 50000)) dry_config 10
                      empty_world)) = 1 /\
  option_map (dict_get "timestamp")
    (fst (place_market_buy (exchange accounts_down (btc_at 50000)) dry_config 10
            empty_world)) = Some (Some "2024-05-01T12:00:00.000000").
Proof.
  destruct (clock_read_iff_order (exchange accounts_down (btc_at 50000)) dry_config 10
              empty_world) as [K T].
  split; [rewrite K; reflexivity|].
  destruct (fst (place_market_buy (exchange accounts_down (btc_at 50000)) dry_config 10
                   empty_world)) as [o|] eqn:E; [|discriminate E].
  cbn [option_map]; rewrite (T o eq_refl); reflexivity.
Defined.

(** X28: [run_diagnostics] only reads: it draws no UUID and reads no
    clock.  Its last three log records are the verdict, which agrees with
    the value it returns, and the closing rule. *)
Theorem run_diagnostics_verdict (env : Env) (config : TradingConfig) (w : World) :
  uuids_drawn (snd (run_diagnostics env config w)) = uuids_drawn w /\
  clock_reads (snd (run_diagnostics env config w)) = clock_reads w /\
  firstn 3 (rev (log (snd (run_diagnostics env config w))))
    = if fst (run_diagnostics env config w)
      then [ (INFO, rule);
             (INFO, "Your bot is ready to trade!");
             (INFO, "ALL DIAGNOSTICS PASSED") ]
      else [ (INFO, rule);
             (ERROR, "Please fix the issues above before trading");
             (ERROR, "SOME DIAGNOSTICS FAILED") ].
Proof.
  unfold run_diagnostics; run.
  next_call (validate_credentials env) (validate_credentials_extends env)
    (validate_credentials_result env) w.
  destruct b; cbn [negb]; run;
    next_call (get_current_price env config) (get_current_price_extends env config)
      (get_current_price_result env config) w;
    match goal with x : option _ |- _ => destruct x end; run;
    next_call (get_order_book env config 5) (get_order_book_extends env config 5)
      (get_order_book_result env config 5) w;
    match goal with x : option _ |- _ => destruct x end; run;
    next_call (get_account_balance env "USD") (get_account_balance_extends env "USD")
      (get_account_balance_result env "USD") w;
    match goal with x : option _ |- _ => destruct x end; run;
    (split; [congruence|split; [congruence|]]);
    rewrite !rev_app_distr; reflexivity.
Qed.

Lemma print_all_stdout (l : list string) (t : Session) :
  stdout (print_all l t) = (stdout t ++ List.map (fun s => (s ++ nl)%string) l)%list.
Proof.
  revert t; induction l as [|s l IH]; intros t.
  - cbn [List.map]; rewrite app_nil_r; reflexivity.
  - unfold print_all in *; cbn [fold_left List.map]; rewrite IH.
    unfold print; cbn [stdout]; rewrite <- app_assoc; reflexivity.
Qed.

(** X29: [--orderbook] fetches the book with the default limit of 10 and,
    when there is one, prints a header and one line for each bid, then a
    header and one line for each ask, and exits with code 0; without a book
    it prints nothing and exits with code 1. *)
Theorem orderbook_command_prints_book (env : Env) (typed : nat -> py string)
    (config : TradingConfig) (args : Args) (t : Session) :
  arg_diagnose args = false ->
  arg_price args = false ->
  arg_orderbook args = true ->
  world (snd (main_commands env typed config args t))
    = snd (get_order_book env config 10 (world t)) /\
  match fst (get_order_book env config 10 (world t)) with
  | Some book =>
      fst (main_commands env typed config args t) = SystemExit 0 /\
      stdout (snd (main_commands env typed config args t))
        = (stdout t ++
           List.map (fun s => (s ++ nl)%string)
             ([ (nl ++ "--- BIDS ---")%string ] ++ book_lines (bids book) ++
              [ (nl ++ "--- ASKS ---")%string ] ++ book_lines (asks book)))%list /\
      List.length (stdout (snd (main_commands env typed config args t)))
        = (List.length (stdout t) + 2 +
           List.length (bids book) + List.length (asks book))%nat
  | None =>
      fst (main_commands env typed config args t) = SystemExit 1 /\
      stdout (snd (main_commands env typed config args t)) = stdout t
  end.
Proof.
  intros A1 A2 A3; unfold main_commands, on_bot; rewrite A1, A2, A3.
  destruct (get_order_book env config 10 (world t)) as [[book|] w1];
    cbn [fst snd world stdout]; [|repeat split].
  assert (S : stdout
                (print_all (book_lines (asks book))
                   (print (nl ++ "--- ASKS ---")
                      (print_all (book_lines (bids book))
                         (print (nl ++ "--- BIDS ---")
                            {| world := w1; stdout := stdout t;
                               lines_read := lines_read t |}))))
              = (stdout t ++
                 List.map (fun s => (s ++ nl)%string)
                   ([ (nl ++ "--- BIDS ---")%string ] ++ book_lines (bids book) ++
                    [ (nl ++ "--- ASKS ---")%string ] ++ book_lines (asks book)))%list).
  { rewrite print_all_stdout; unfold print at 1; cbn [stdout].
    rewrite print_all_stdout; unfold print; cbn [stdout].
    rewrite !map_app, <- !app_assoc; reflexivity. }
  split; [|split; [reflexivity|split; [exact S|]]].
  - rewrite (proj1 (print_all_world _ _)); unfold print at 1; cbn [world].
    rewrite (proj1 (print_all_world _ _)); reflexivity.
  - rewrite S, length_app, length_map, !length_app; unfold book_lines;
      rewrite !length_map; cbn [List.length]; lia.
Qed.

Lemma orderbook_command_prints_book_witness :
  fst (main_commands (with_book (Returns (Some deep_book))
                        (exchange accounts_down (btc_at 50000)))
         (typing "") dry_config
         {| arg_diagnose := false; arg_price := false; arg_orderbook := true;
            arg_buy := None; arg_dry_run := false; arg_live := false |}
         (start empty_world)) = SystemExit 0 /\
  List.length
    (stdout (snd (main_commands (with_book (Returns (Some deep_book))
                                   (exchange accounts_down (btc_at 50000)))
                    (typing "") dry_config
                    {| arg_diagnose := false; arg_price := false; arg_orderbook := true;
                       arg_buy := None; arg_dry_run := false; arg_live := false |}
                    (start empty_world)))) = 8.
Proof.
  assert (B : fst (get_order_book (with_book (Returns (Some deep_book))
                                     (exchange accounts_down (btc_at 50000)))
                     dry_config 10 (world (start empty_world)))
              = Some {| bids := [ {| price := 49990; size := 1 |};
                                  {| price := 49980; size := 2 |};
                                  {| price := 49970; size := 3 |} ];
                        asks := [ {| price := 50010; size := 1 |};
                                  {| price := 50020; size := 2 |};
                                  {| price := 50030; size := 3 |} ] |})
    by (vm_compute; reflexivity).
  destruct (orderbook_command_prints_book
              (with_book (Returns (Some deep_book)) (exchange accounts_down (btc_at 50000)))
              (typing "") dry_config
              {| arg_diagnose := false; arg_price := false; arg_orderbook := true;
                 arg_buy := None; arg_dry_run := false; arg_live := false |}
              (start empty_world) eq_refl eq_refl eq_refl) as [_ H].
  rewrite B in H; destruct H as [E [_ N]].
  split; [exact E|rewrite N; reflexivity].
Defined.
